(** * ESC/POS command formatter of the Windows printer binding (printer.go)

    A shallow embedding of the receipt-formatting half of [printer.go]: the
    [Printer] toggles, the byte sequences each operation hands to the
    spooler, and the node operations built from them; and, of the spooler
    half, the status text [Jobs] computes for a job.  Go strings are byte
    strings and are modelled by [string]; a [[]byte] is a [list Z] of values
    below 256; [uint8] and [uint16] arithmetic is written with its
    wrap-around. *)

From Stdlib Require Import ZArith String Ascii List Lia DecimalString.
From stdpp Require Import base option list gmap strings fin_maps.

Local Open Scope string_scope.
Local Open Scope list_scope.
Local Open Scope Z_scope.

(** ** Bytes and strings *)

Definition uint8 (x : Z) : Z := x mod 256.
Definition uint16 (x : Z) : Z := x mod 65536.

Definition byte_of_ascii (c : ascii) : Z := Z.of_N (N_of_ascii c).
Definition ascii_of_byte (b : Z) : ascii := ascii_of_N (Z.to_N (uint8 b)).

(** [[]byte(s)] *)
Fixpoint bytes_of_string (s : string) : list Z :=
  match s with
  | EmptyString => []
  | String c s' => byte_of_ascii c :: bytes_of_string s'
  end.

(** [string(b)] *)
Fixpoint string_of_bytes (b : list Z) : string :=
  match b with
  | [] => EmptyString
  | x :: b' => String (ascii_of_byte x) (string_of_bytes b')
  end.

(** [len(s)] *)
Definition len (s : string) : Z := Z.of_nat (String.length s).

(** The control characters the escape sequences start with. *)
Definition ESC : string := String "027" "".
Definition GS : string := String "029" "".
Definition NUL : string := String "000" "".

(** ** [fmt.Sprintf] verbs used by the formatter *)

Definition RuneError : Z := 0xFFFD.

Definition validRune (r : Z) : bool :=
  (0 <=? r) && (r <=? 0x10FFFF) && negb ((0xD800 <=? r) && (r <=? 0xDFFF)).

(** [utf8.AppendRune]; anything that is not a code point (out of range or a
    surrogate half) is written as U+FFFD. *)
Definition AppendRune (r0 : Z) : list Z :=
  let r := if validRune r0 then r0 else RuneError in
  if r <=? 0x7F then [r]
  else if r <=? 0x7FF then
    [Z.lor 0xC0 (Z.shiftr r 6); Z.lor 0x80 (Z.land r 0x3F)]
  else if r <=? 0xFFFF then
    [Z.lor 0xE0 (Z.shiftr r 12);
     Z.lor 0x80 (Z.land (Z.shiftr r 6) 0x3F);
     Z.lor 0x80 (Z.land r 0x3F)]
  else
    [Z.lor 0xF0 (Z.shiftr r 18);
     Z.lor 0x80 (Z.land (Z.shiftr r 12) 0x3F);
     Z.lor 0x80 (Z.land (Z.shiftr r 6) 0x3F);
     Z.lor 0x80 (Z.land r 0x3F)].

(** The verb [%c] applied to an integer: the UTF-8 encoding of the code
    point, U+FFFD for anything that is not one (negative integers reach
    [fmtC] as huge unsigned values). *)
Definition fmtC (c : Z) : string := string_of_bytes (AppendRune c).

(** The verb [%v] applied to an [int]: its decimal digits. *)
Definition fmtV_int (n : Z) : string :=
  match n with
  | Z0 => "0"
  | Zpos q => NilEmpty.string_of_uint (Pos.to_uint q)
  | Zneg q => "-" +:+ NilEmpty.string_of_uint (Pos.to_uint q)
  end.

(** ** Results of running an operation

    [log.Fatalf] prints and terminates the process; a failed index or slice
    expression is a run-time panic.  Both stop the operation where they
    happen and leave what was already written with the spooler. *)

Inductive ConfigurationError : Type :=
  | InvalidFont (font : string)
  | InvalidFontSize (w h : Z)
  | InvalidAlignment (align : string)
  | InvalidLanguage (lang : string)
  | InvalidFontWidth (v : string)
  | InvalidFontHeight (v : string)
  | InvalidX (v : string)
  | InvalidY (v : string)
  | InvalidLine (v : string)
  | InvalidUnit (v : string)
  | NoImageWidth
  | NoImageHeight
  | InvalidImageWidth (v : string)
  | InvalidImageHeight (v : string)
  | InvalidImageData.

Inductive RuntimeError : Type :=
  | IndexOutOfRange
  | SliceOutOfRange.

Inductive outcome (A : Type) : Type :=
  | Done (a : A)
  | Fatal (e : ConfigurationError)
  | Panic (e : RuntimeError).
Arguments Done {A} a.
Arguments Fatal {A} e.
Arguments Panic {A} e.

(** ** The printer *)

(** The fields of [Printer].  The handle [h] stands for the spooler behind
    it: [spool] lists the buffers handed to [WritePrinter], oldest first,
    and [spool_ok n] tells whether the call number [n] reports success. *)
Record Printer : Type := mkPrinter {
  width : Z;
  height : Z;
  underline : Z;
  emphasize : Z;
  upsidedown : Z;
  rotate : Z;
  reverse : Z;
  smooth : Z;
  Debug : bool;
  data : list Z;
  spool : list (list Z);
  spool_ok : nat → bool;
}.

(** All bytes handed to the spooler so far. *)
Definition emitted (p : Printer) : list Z := concat (spool p).

Definition toggles (p : Printer) : Z * Z * (Z * Z * Z * Z) * (Z * Z) :=
  (width p, height p,
   (underline p, emphasize p, upsidedown p, rotate p),
   (reverse p, smooth p)).

Definition default_toggles : Z * Z * (Z * Z * Z * Z) * (Z * Z) :=
  (1, 1, (0, 0, 0, 0), (0, 0)).

(** Operations are state transformers over the printer that may stop. *)
Definition M (A : Type) : Type := Printer → Printer * outcome A.

Definition ret {A} (a : A) : M A := λ p, (p, Done a).

Definition bind {A B} (m : M A) (k : A → M B) : M B :=
  λ p, match m p with
       | (p', Done a) => k a p'
       | (p', Fatal e) => (p', Fatal e)
       | (p', Panic e) => (p', Panic e)
       end.

Notation "m1 ;;; m2" := (bind m1 (λ _, m2))
  (at level 100, m2 at level 200, right associativity).

Definition Fatalf {A} (e : ConfigurationError) : M A := λ p, (p, Fatal e).
Definition panic {A} (e : RuntimeError) : M A := λ p, (p, Panic e).
Definition skip : M unit := ret tt.

(** [reset]: the toggles go back to their defaults. *)
Definition reset : M unit := λ p,
  (mkPrinter 1 1 0 0 0 0 0 0 (Debug p) (data p) (spool p) (spool_ok p),
   Done tt).

(** The printer after [WritePrinter] was called on the buffer [b]: the
    buffer is recorded whole (a slice shorter than 2^32 bytes, so that
    [uint32(len(b))] is its length), and it is kept in [data] when the call
    succeeded and [Debug] is set. *)
Definition sent (b : list Z) (p : Printer) : Printer :=
  let ok := spool_ok p (length (spool p)) in
  mkPrinter (width p) (height p) (underline p) (emphasize p)
    (upsidedown p) (rotate p) (reverse p) (smooth p) (Debug p)
    (if ok && Debug p then data p ++ b else data p)
    (spool p ++ [b]) (spool_ok p).

(** [Write].  [&b[0]] panics on an empty buffer before the spooler is
    called.  No caller in the formatter looks at the two results, so the
    model returns none. *)
Definition Write (b : list Z) : M unit := λ p,
  match b with
  | [] => (p, Panic IndexOutOfRange)
  | _ :: _ => (sent b p, Done tt)
  end.

Definition WriteString (s : string) : M unit := Write (bytes_of_string s).

(** ** Sending and setting the toggles *)

Notation "'let*' x ':=' m 'in' k" := (bind m (λ x, k))
  (at level 10, x name, m at level 100, k at level 200).

Definition get : M Printer := λ p, (p, Done p).
Definition modify (f : Printer → Printer) : M unit := λ p, (f p, Done tt).

Definition set_width (v : Z) (p : Printer) : Printer :=
  mkPrinter v (height p) (underline p) (emphasize p) (upsidedown p)
    (rotate p) (reverse p) (smooth p) (Debug p) (data p) (spool p)
    (spool_ok p).
Definition set_height (v : Z) (p : Printer) : Printer :=
  mkPrinter (width p) v (underline p) (emphasize p) (upsidedown p)
    (rotate p) (reverse p) (smooth p) (Debug p) (data p) (spool p)
    (spool_ok p).
Definition set_underline (v : Z) (p : Printer) : Printer :=
  mkPrinter (width p) (height p) v (emphasize p) (upsidedown p)
    (rotate p) (reverse p) (smooth p) (Debug p) (data p) (spool p)
    (spool_ok p).
Definition set_emphasize (v : Z) (p : Printer) : Printer :=
  mkPrinter (width p) (height p) (underline p) v (upsidedown p)
    (rotate p) (reverse p) (smooth p) (Debug p) (data p) (spool p)
    (spool_ok p).
Definition set_upsidedown (v : Z) (p : Printer) : Printer :=
  mkPrinter (width p) (height p) (underline p) (emphasize p) v
    (rotate p) (reverse p) (smooth p) (Debug p) (data p) (spool p)
    (spool_ok p).
Definition set_rotate (v : Z) (p : Printer) : Printer :=
  mkPrinter (width p) (height p) (underline p) (emphasize p) (upsidedown p)
    v (reverse p) (smooth p) (Debug p) (data p) (spool p) (spool_ok p).
Definition set_reverse (v : Z) (p : Printer) : Printer :=
  mkPrinter (width p) (height p) (underline p) (emphasize p) (upsidedown p)
    (rotate p) v (smooth p) (Debug p) (data p) (spool p) (spool_ok p).
Definition set_smooth (v : Z) (p : Printer) : Printer :=
  mkPrinter (width p) (height p) (underline p) (emphasize p) (upsidedown p)
    (rotate p) (reverse p) v (Debug p) (data p) (spool p) (spool_ok p).

Definition Init : M unit := reset ;;; WriteString (ESC +:+ "@").
Definition End : M unit := WriteString (String "250" "").
Definition Cut : M unit := WriteString (GS +:+ "VA0").
Definition CutPartial : M unit := Write [0x1D; 0x56; 1].
Definition Cash : M unit :=
  WriteString (ESC +:+ String "112" (String "000" (String "010" (String "255" "")))).
Definition Linefeed : M unit := WriteString (String "010" "").

(** [FormfeedN]: the count goes through [%c]. *)
Definition FormfeedN (n : Z) : M unit := WriteString (ESC +:+ "d" +:+ fmtC n).
Definition Formfeed : M unit := FormfeedN 1.

Definition SetFont (font : string) : M unit :=
  let* f :=
    (if String.eqb font "A" then ret 0
     else if String.eqb font "B" then ret 1
     else if String.eqb font "C" then ret 2
     else Fatalf (InvalidFont font)) in
  WriteString (ESC +:+ "M" +:+ fmtC f).

(** [((p.width-1)<<4)|(p.height-1)] in [uint8] arithmetic. *)
Definition font_size_byte (w h : Z) : Z :=
  Z.lor (uint8 (Z.shiftl (uint8 (w - 1)) 4)) (uint8 (h - 1)).

Definition SendFontSize : M unit :=
  let* p := get in
  WriteString (GS +:+ "!" +:+ fmtC (font_size_byte (width p) (height p))).

Definition SetFontSize (w h : Z) : M unit :=
  if (0 <? w) && (0 <? h) && (w <=? 8) && (h <=? 8) then
    modify (set_width w) ;;;
    modify (set_height h) ;;;
    SendFontSize
  else Fatalf (InvalidFontSize w h).

Definition SendUnderline : M unit :=
  let* p := get in WriteString (ESC +:+ "-" +:+ fmtC (underline p)).
Definition SendEmphasize : M unit :=
  let* p := get in WriteString (ESC +:+ "G" +:+ fmtC (emphasize p)).
Definition SendUpsidedown : M unit :=
  let* p := get in WriteString (ESC +:+ "{" +:+ fmtC (upsidedown p)).
Definition SendRotate : M unit :=
  let* p := get in WriteString (ESC +:+ "R" +:+ fmtC (rotate p)).
Definition SendReverse : M unit :=
  let* p := get in WriteString (GS +:+ "B" +:+ fmtC (reverse p)).
Definition SendSmooth : M unit :=
  let* p := get in WriteString (GS +:+ "b" +:+ fmtC (smooth p)).

Definition SendMoveX (x : Z) : M unit :=
  WriteString (string_of_bytes [0x1b; 0x24; uint8 (x mod 256); uint8 (x / 256)]).
Definition SendMoveY (y : Z) : M unit :=
  WriteString (string_of_bytes [0x1d; 0x24; uint8 (y mod 256); uint8 (y / 256)]).

Definition SetUnderline (v : Z) : M unit := modify (set_underline v) ;;; SendUnderline.
Definition SetEmphasize (u : Z) : M unit := modify (set_emphasize u) ;;; SendEmphasize.
Definition SetUpsidedown (v : Z) : M unit := modify (set_upsidedown v) ;;; SendUpsidedown.
Definition SetRotate (v : Z) : M unit := modify (set_rotate v) ;;; SendRotate.
Definition SetReverse (v : Z) : M unit := modify (set_reverse v) ;;; SendReverse.
Definition SetSmooth (v : Z) : M unit := modify (set_smooth v) ;;; SendSmooth.

Definition Pulse : M unit := WriteString (ESC +:+ "p" +:+ String "002" "").

Definition SetAlign (align : string) : M unit :=
  let* a :=
    (if String.eqb align "left" then ret 0
     else if String.eqb align "center" then ret 1
     else if String.eqb align "right" then ret 2
     else Fatalf (InvalidAlignment align)) in
  WriteString (ESC +:+ "a" +:+ fmtC a).

Definition SetLang (lang : string) : M unit :=
  let* l :=
    (if String.eqb lang "en" then ret 0
     else if String.eqb lang "fr" then ret 1
     else if String.eqb lang "de" then ret 2
     else if String.eqb lang "uk" then ret 3
     else if String.eqb lang "da" then ret 4
     else if String.eqb lang "sv" then ret 5
     else if String.eqb lang "it" then ret 6
     else if String.eqb lang "es" then ret 7
     else if String.eqb lang "ja" then ret 8
     else if String.eqb lang "no" then ret 9
     else Fatalf (InvalidLanguage lang)) in
  WriteString (ESC +:+ "R" +:+ fmtC l).

(** ** Library functions the node operations call *)

(** [strconv.Atoi] on a 64-bit platform: an optional sign, then one or more
    decimal digits, and a value that fits an [int]; everything else comes
    back with an error, which the callers turn into a fatal message. *)
Definition is_digit (c : ascii) : bool :=
  (48 <=? byte_of_ascii c) && (byte_of_ascii c <=? 57).

Fixpoint digits_value (acc : Z) (s : string) : option Z :=
  match s with
  | EmptyString => Some acc
  | String c s' =>
      if is_digit c then digits_value (acc * 10 + (byte_of_ascii c - 48)) s'
      else None
  end.

Definition intSize : Z := 64.

Definition Atoi (s : string) : option Z :=
  match s with
  | EmptyString => None
  | String c rest =>
      let neg := Ascii.eqb c "-" in
      let ds := if Ascii.eqb c "-" || Ascii.eqb c "+" then rest else s in
      match ds with
      | EmptyString => None
      | String _ _ =>
          match digits_value 0 ds with
          | None => None
          | Some n =>
              let v := if neg then - n else n in
              if (- 2 ^ (intSize - 1) <=? v) && (v <? 2 ^ (intSize - 1))
              then Some v else None
          end
      end
  end.

(** [s[lo:hi]] for constant bounds [lo <= hi]: a panic unless
    [hi <= len(s)]. *)
Definition slice (s : string) (lo hi : nat) : M string :=
  if (hi <=? String.length s)%nat then ret (substring lo (hi - lo) s)
  else panic SliceOutOfRange.

(** [strings.ToUpper], byte by byte: ASCII letters are raised, other ASCII
    bytes kept, and a byte from 0x80 on that is not part of a UTF-8 sequence
    becomes U+FFFD.  The formatter only calls it on a one-byte string, which
    is of one of these kinds. *)
Definition upper_byte (b : Z) : list Z :=
  if (97 <=? b) && (b <=? 122) then [b - 32]
  else if b <? 128 then [b]
  else AppendRune RuneError.

Definition ToUpper (s : string) : string :=
  string_of_bytes (flat_map upper_byte (bytes_of_string s)).

(** [strings.Replace(s, old, new, -1)]: every non-overlapping occurrence of
    [old], found from the left, becomes [new].  [skip] counts the bytes of
    an occurrence still to be dropped.  (For an empty [old] Go inserts [new]
    around every UTF-8 sequence; the table below has no empty key.) *)
Fixpoint replace_go (old new : string) (skip : nat) (s : string) : string :=
  match s with
  | EmptyString => EmptyString
  | String c s' =>
      match skip with
      | S k => replace_go old new k s'
      | O =>
          if String.prefix old s
          then new +:+ replace_go old new (String.length old - 1) s'
          else String c (replace_go old new O s')
      end
  end.

Definition Replace (s old new : string) : string := replace_go old new O s.

(** The entries of [textReplaceMap], in the order the source lists them. *)
Definition textReplaceEntries : list (string * string) :=
  [ ("&#9;", String "009" "");
    ("&#x9;", String "009" "");
    ("&#10;", String "010" "");
    ("&#xA;", String "010" "");
    ("&apos;", "'");
    ("&quot;", String "034" "");
    ("&gt;", ">");
    ("&lt;", "<");
    ("&amp;", "&") ].

Definition textReplaceMap : gmap string string := list_to_map textReplaceEntries.

(** [textReplace] ranges over the map.  Go leaves the order in which a
    [range] visits a map unspecified (the runtime randomises it), so the
    loop is run here on the order [order] of one particular visit; any
    arrangement of the map's entries is a possible one. *)
Definition range_order (m : gmap string string) (order : list (string * string)) : Prop :=
  order ≡ₚ map_to_list m.

Definition textReplace_in (order : list (string * string)) (data : string) : string :=
  foldl (λ d kv, Replace d kv.1 kv.2) data order.

(** [r] is a possible result of [textReplace(data)]. *)
Definition textReplace (data r : string) : Prop :=
  ∃ order, range_order textReplaceMap order ∧ r = textReplace_in order data.

(** [base64.StdEncoding.DecodeString]: line breaks are skipped anywhere; the
    rest must be groups of four characters of the alphabet, the last of
    which may end in one or two [=]; nothing may follow the padding. *)
Definition b64_index (b : Z) : option Z :=
  if (65 <=? b) && (b <=? 90) then Some (b - 65)
  else if (97 <=? b) && (b <=? 122) then Some (b - 71)
  else if (48 <=? b) && (b <=? 57) then Some (b + 4)
  else if b =? 43 then Some 62
  else if b =? 47 then Some 63
  else None.

Definition quantum (x y z w : Z) : list Z :=
  let v := Z.lor (Z.lor (Z.shiftl x 18) (Z.shiftl y 12)) (Z.lor (Z.shiftl z 6) w) in
  [Z.shiftr v 16; Z.land (Z.shiftr v 8) 255; Z.land v 255].

Definition is_nil {A} (l : list A) : bool :=
  match l with [] => true | _ => false end.

Fixpoint decode_quanta (src : list Z) : option (list Z) :=
  match src with
  | [] => Some []
  | a :: b :: c :: d :: rest =>
      match b64_index a, b64_index b with
      | Some x, Some y =>
          match b64_index c, b64_index d with
          | Some z, Some w =>
              match decode_quanta rest with
              | Some out => Some (quantum x y z w ++ out)
              | None => None
              end
          | Some z, None =>
              if (d =? 61) && is_nil rest then Some (take 2 (quantum x y z 0))
              else None
          | None, _ =>
              if (c =? 61) && (d =? 61) && is_nil rest
              then Some (take 1 (quantum x y 0 0))
              else None
          end
      | _, _ => None
      end
  | _ => None
  end.

Definition DecodeString (s : string) : option (list Z) :=
  decode_quanta
    (filter (λ b, b ≠ 10 ∧ b ≠ 13) (bytes_of_string s)).

(** ** Node operations *)

(** [v, ok := params[k]; ok && (v == "true" || v == "1")] *)
Definition truthy (o : option string) : bool :=
  match o with
  | Some v => String.eqb v "true" || String.eqb v "1"
  | None => false
  end.

Definition when (c : bool) (m : M unit) : M unit := if c then m else skip.

(** [if v, ok := params[k]; ok { body(v) }] *)
Definition if_present (o : option string) (body : string → M unit) : M unit :=
  match o with
  | Some v => body v
  | None => skip
  end.

(** [Text]; [order] is the order in which [textReplace] happens to visit
    its map during this call. *)
Definition Text (order : list (string * string))
    (params : gmap string string) (data : string) : M unit :=
  if_present (params !! "align") SetAlign ;;;
  if_present (params !! "lang") SetLang ;;;
  when (truthy (params !! "smooth")) (SetSmooth 1) ;;;
  when (truthy (params !! "em")) (SetEmphasize 1) ;;;
  when (truthy (params !! "ul")) (SetUnderline 1) ;;;
  when (truthy (params !! "reverse")) (SetReverse 1) ;;;
  when (truthy (params !! "rotate")) (SetRotate 1) ;;;
  if_present (params !! "font") (λ font,
    let* c := slice font 5 6 in SetFont (ToUpper c)) ;;;
  when (truthy (params !! "dw"))
    (let* p := get in SetFontSize 2 (height p)) ;;;
  when (truthy (params !! "dh"))
    (let* p := get in SetFontSize (width p) 2) ;;;
  if_present (params !! "width") (λ w,
    match Atoi w with
    | Some i => let* p := get in SetFontSize (uint8 i) (height p)
    | None => Fatalf (InvalidFontWidth w)
    end) ;;;
  if_present (params !! "height") (λ h,
    match Atoi h with
    | Some i => let* p := get in SetFontSize (width p) (uint8 i)
    | None => Fatalf (InvalidFontHeight h)
    end) ;;;
  if_present (params !! "x") (λ x,
    match Atoi x with
    | Some i => SendMoveX (uint16 i)
    | None => Fatalf (InvalidX x)
    end) ;;;
  if_present (params !! "y") (λ y,
    match Atoi y with
    | Some i => SendMoveY (uint16 i)
    | None => Fatalf (InvalidY y)
    end) ;;;
  let data' := textReplace_in order data in
  when (0 <? len data') (WriteString data').

Definition Feed (params : gmap string string) : M unit :=
  if_present (params !! "line") (λ l,
    match Atoi l with
    | Some i => FormfeedN i
    | None => Fatalf (InvalidLine l)
    end) ;;;
  if_present (params !! "unit") (λ u,
    match Atoi u with
    | Some i => SendMoveY (uint16 i)
    | None => Fatalf (InvalidUnit u)
    end) ;;;
  Linefeed ;;;
  reset ;;;
  SendEmphasize ;;;
  SendRotate ;;;
  SendSmooth ;;;
  SendReverse ;;;
  SendUnderline ;;;
  SendUpsidedown ;;;
  SendFontSize ;;;
  SendUnderline.

Definition FeedAndCut (params : gmap string string) : M unit :=
  when (match params !! "type" with
        | Some t => String.eqb t "feed"
        | None => false
        end) Formfeed ;;;
  Cut.

(** The format code of [Barcode]; formats outside the [switch] keep the
    empty string. *)
Definition barcode_code (format : Z) : string :=
  if format =? 0 then String "000" ""
  else if format =? 1 then String "001" ""
  else if format =? 2 then String "002" ""
  else if format =? 3 then String "003" ""
  else if format =? 4 then String "004" ""
  else if format =? 73 then String "073" ""
  else "".

Definition Barcode (barcode : string) (format : Z) : M unit :=
  let code := barcode_code format in
  reset ;;;
  SetAlign "center" ;;;
  (if 69 <? format then
     WriteString (GS +:+ "k" +:+ code +:+ fmtV_int (len barcode) +:+ barcode)
   else if format <? 69 then
     WriteString (GS +:+ "k" +:+ code +:+ barcode +:+ NUL)
   else skip) ;;;
  WriteString barcode.

Definition gSend (m fn : Z) (data : list Z) : M unit :=
  let l := Z.of_nat (length data) + 2 in
  WriteString (ESC +:+ "(L") ;;;
  Write [uint8 (l mod 256); uint8 (l / 256); m; fn] ;;;
  Write data.

(** [Image].  The two [log.Printf] lines go to the process log, not to the
    printer, and are left out. *)
Definition Image (params : gmap string string) (data : string) : M unit :=
  if_present (params !! "align") SetAlign ;;;
  let* wstr :=
    (match params !! "width" with
     | Some w => ret w
     | None => Fatalf NoImageWidth
     end) in
  let* hstr :=
    (match params !! "height" with
     | Some h => ret h
     | None => Fatalf NoImageHeight
     end) in
  let* width :=
    (match Atoi wstr with
     | Some i => ret i
     | None => Fatalf (InvalidImageWidth wstr)
     end) in
  let* height :=
    (match Atoi hstr with
     | Some i => ret i
     | None => Fatalf (InvalidImageHeight hstr)
     end) in
  let* dec :=
    (match DecodeString data with
     | Some d => ret d
     | None => Fatalf InvalidImageData
     end) in
  let header := [byte_of_ascii "0"; 0x01; 0x01; byte_of_ascii "1"] in
  let a := header ++ dec in
  gSend (byte_of_ascii "0") (byte_of_ascii "p") a ;;;
  gSend (byte_of_ascii "0") (byte_of_ascii "2") [].

(** [WriteNode].  What comes before the [switch] only builds a line for the
    process log ([data[0:40]] is taken when [len(data) > 40], so it cannot
    fail); the [switch] has no default case. *)
Definition WriteNode (order : list (string * string)) (name : string)
    (params : gmap string string) (data : string) : M unit :=
  if String.eqb name "text" then Text order params data
  else if String.eqb name "feed" then Feed params
  else if String.eqb name "cut" then FeedAndCut params
  else if String.eqb name "pulse" then Pulse
  else if String.eqb name "image" then Image params data
  else skip.

(** The printer [Open] returns: every field at its zero value, nothing sent
    yet.  [ok] is how the spooler will answer. *)
Definition opened (ok : nat → bool) : Printer :=
  mkPrinter 0 0 0 0 0 0 0 0 false [] [] ok.

(** A spooler that accepts every buffer. *)
Definition spooler_up : nat → bool := λ _, true.

(** [Feed] parameters that let it run to its end: [line] and [unit], when
    given, are integers for [Atoi]. *)
Definition numeric_or_absent (o : option string) : bool :=
  match o with
  | Some v => match Atoi v with Some _ => true | None => false end
  | None => true
  end.

Definition feed_params_ok (params : gmap string string) : bool :=
  numeric_or_absent (params !! "line") && numeric_or_absent (params !! "unit").

(** The bytes of the form feed and of the vertical move that [Feed] sends
    for its parameters, in this order. *)
Definition feed_moves (params : gmap string string) : list Z :=
  match params !! "line" ≫= Atoi with
  | Some i => [0x1B; 0x64] ++ bytes_of_string (fmtC i)
  | None => []
  end ++
  match params !! "unit" ≫= Atoi with
  | Some i => [0x1D; 0x24; uint16 i mod 256; uint16 i / 256]
  | None => []
  end.

(** A parameter that is present and an integer for [Atoi]. *)
Definition numeric_present (o : option string) : bool :=
  match o with
  | Some v => match Atoi v with Some _ => true | None => false end
  | None => false
  end.

(** An [align] and a [lang] that [SetAlign] and [SetLang] accept, or none. *)
Definition align_ok (o : option string) : bool :=
  match o with
  | Some a =>
      String.eqb a "left" || String.eqb a "center" || String.eqb a "right"
  | None => true
  end.

Definition lang_ok (o : option string) : bool :=
  match o with
  | Some l =>
      existsb (String.eqb l)
        ["en"; "fr"; "de"; "uk"; "da"; "sv"; "it"; "es"; "ja"; "no"]
  | None => true
  end.

(** An operation that returns from every state, and one that panics from
    every state. *)
Definition returns (m : M unit) : Prop := ∀ p, ∃ p', m p = (p', Done tt).

Definition panics (e : RuntimeError) (m : M unit) : Prop :=
  ∀ p, (m p).2 = Panic e.

(** ** What every operation leaves alone *)

(** [m] takes every printer to one that is [R]-related to it, whether it
    returns or stops on the way. *)
Definition relates {A} (R : relation Printer) (m : M A) : Prop :=
  ∀ p, R p (m p).1.

(** Two printers that differ at most in their toggles. *)
Definition same_spooler (p q : Printer) : Prop :=
  Debug q = Debug p ∧ data q = data p ∧ spool q = spool p
  ∧ spool_ok q = spool_ok p.

(** [q] comes after [p]: the same [Debug] flag and spooler, and what was
    sent and kept before is still there, at the front. *)
Definition grows (p q : Printer) : Prop :=
  Debug q = Debug p ∧ spool_ok q = spool_ok p
  ∧ spool p `prefix_of` spool q ∧ data p `prefix_of` data q.

(** With [Debug] set and a spooler that accepts every call, [data] is a
    copy of what was sent. *)
Definition mirrors (p : Printer) : Prop :=
  Debug p = true ∧ (∀ n, spool_ok p n = true) ∧ data p = emitted p.

(** Nothing is kept: [Debug] is off or the spooler refuses every call. *)
Definition keeps_nothing (p : Printer) : Prop :=
  Debug p = false ∨ ∀ n, spool_ok p n = false.

(** The two ways in which an operation respects the copy in [data]. *)
Definition mirrors_kept (p q : Printer) : Prop := mirrors p → mirrors q.

Definition nothing_kept (p q : Printer) : Prop :=
  Debug q = Debug p ∧ spool_ok q = spool_ok p
  ∧ (keeps_nothing p → data q = data p).

(** ** Statements about entity substitution *)

(** The text has no ampersand in it. *)
Definition no_ampersand (s : string) : Prop :=
  ¬ In "&"%char (list_ascii_of_string s).

(** [old] occurs somewhere in [s]. *)
Fixpoint occurs (old s : string) : bool :=
  String.prefix old s
  || match s with
     | EmptyString => false
     | String _ s' => occurs old s'
     end.

(** ** Statements about text and image nodes *)

(** Each of the five toggles a text node can switch on is what it was or
    1, and the upside-down toggle is what it was. *)
Definition set_or_kept (p q : Printer) : Prop :=
  upsidedown q = upsidedown p
  ∧ (smooth q = smooth p ∨ smooth q = 1)
  ∧ (emphasize q = emphasize p ∨ emphasize q = 1)
  ∧ (underline q = underline p ∨ underline q = 1)
  ∧ (reverse q = reverse p ∨ reverse q = 1)
  ∧ (rotate q = rotate p ∨ rotate q = 1).

(** Parameters on which [Text] does nothing before the payload: none of
    the keys with a value to read, and no switch that is [true] or [1]. *)
Definition text_inert (params : gmap string string) : bool :=
  forallb (λ k, bool_decide (params !! k = None))
    ["align"; "lang"; "font"; "width"; "height"; "x"; "y"]
  && forallb (λ k, negb (truthy (params !! k)))
       ["smooth"; "em"; "ul"; "reverse"; "rotate"; "dw"; "dh"].

(** An operation that does not return, from any state. *)
Definition never_returns {A} (m : M A) : Prop := ∀ p a, (m p).2 ≠ Done a.

(** ** The status text of a print job

    [Jobs] reads the fields of each job from the spooler's buffer; the
    [Status] it reports is computed from two of them, the status string
    (empty for a nil pointer) and the status code. *)

Definition JOB_STATUS_PAUSED : Z := 0x00000001.
Definition JOB_STATUS_ERROR : Z := 0x00000002.
Definition JOB_STATUS_DELETING : Z := 0x00000004.
Definition JOB_STATUS_SPOOLING : Z := 0x00000008.
Definition JOB_STATUS_PRINTING : Z := 0x00000010.
Definition JOB_STATUS_OFFLINE : Z := 0x00000020.
Definition JOB_STATUS_PAPEROUT : Z := 0x00000040.
Definition JOB_STATUS_PRINTED : Z := 0x00000080.
Definition JOB_STATUS_DELETED : Z := 0x00000100.
Definition JOB_STATUS_BLOCKED_DEVQ : Z := 0x00000200.
Definition JOB_STATUS_USER_INTERVENTION : Z := 0x00000400.
Definition JOB_STATUS_RESTART : Z := 0x00000800.
Definition JOB_STATUS_COMPLETE : Z := 0x00001000.
Definition JOB_STATUS_RETAINED : Z := 0x00002000.
Definition JOB_STATUS_RENDERING_LOCALLY : Z := 0x00004000.

(** [strings.TrimSpace(s) == ""]: [s] is made of white space only, that is
    of the six ASCII blanks and of the UTF-8 encodings of U+0085, U+00A0,
    U+1680, U+2000 to U+200A, U+2028, U+2029, U+202F, U+205F and U+3000. *)
Definition ascii_space (b : Z) : bool :=
  ((9 <=? b) && (b <=? 13)) || (b =? 32).

Fixpoint blank_bytes (fuel : nat) (b : list Z) : bool :=
  match fuel with
  | O => is_nil b
  | S fuel' =>
      match b with
      | [] => true
      | 0xC2 :: 0x85 :: r => blank_bytes fuel' r
      | 0xC2 :: 0xA0 :: r => blank_bytes fuel' r
      | 0xE1 :: 0x9A :: 0x80 :: r => blank_bytes fuel' r
      | 0xE2 :: 0x80 :: x :: r =>
          (((0x80 <=? x) && (x <=? 0x8A)) || (x =? 0xA8) || (x =? 0xA9)
           || (x =? 0xAF))
          && blank_bytes fuel' r
      | 0xE2 :: 0x81 :: 0x9F :: r => blank_bytes fuel' r
      | 0xE3 :: 0x80 :: 0x80 :: r => blank_bytes fuel' r
      | x :: r => ascii_space x && blank_bytes fuel' r
      end
  end.

Definition TrimSpace_is_empty (s : string) : bool :=
  blank_bytes (String.length s) (bytes_of_string s).

(** [strings.TrimRight(s, cutset)] for a cutset of ASCII characters: the
    longest tail of bytes of the cutset is dropped. *)
Fixpoint TrimRight (s : string) (cutset : list ascii) : string :=
  match s with
  | EmptyString => EmptyString
  | String c s' =>
      match TrimRight s' cutset with
      | EmptyString =>
          if bool_decide (c ∈ cutset) then EmptyString else String c EmptyString
      | r => String c r
      end
  end.

(** The flags in the order in which [Jobs] tests them, each with the text
    it adds. *)
Definition jobStatusFlags : list (Z * string) :=
  [ (JOB_STATUS_PRINTING, "Printing, ");
    (JOB_STATUS_PAUSED, "Paused, ");
    (JOB_STATUS_ERROR, "Error, ");
    (JOB_STATUS_DELETING, "Deleting, ");
    (JOB_STATUS_SPOOLING, "Spooling, ");
    (JOB_STATUS_OFFLINE, "Printer Offline, ");
    (JOB_STATUS_PAPEROUT, "Out of Paper, ");
    (JOB_STATUS_PRINTED, "Printed, ");
    (JOB_STATUS_DELETED, "Deleted, ");
    (JOB_STATUS_BLOCKED_DEVQ, "Driver Error, ");
    (JOB_STATUS_USER_INTERVENTION, "User Action Required, ");
    (JOB_STATUS_RESTART, "Restarted, ");
    (JOB_STATUS_COMPLETE, "Sent to Printer, ");
    (JOB_STATUS_RETAINED, "Retained, ");
    (JOB_STATUS_RENDERING_LOCALLY, "Rendering on Client, ") ].

(** [if pji.StatusCode&flag != 0 { pji.Status += label }], flag by flag. *)
Definition add_flags (StatusCode : Z) (flags : list (Z * string))
    (Status : string) : string :=
  foldl (λ s fl, if Z.land StatusCode fl.1 =? 0 then s else s +:+ fl.2)
    Status flags.

(** The cutset [", "] of the final [TrimRight]. *)
Definition separators : list ascii := [","; " "]%char.

(** The [Status] of a job whose spooler status string is [Status] and whose
    status code is [StatusCode]. *)
Definition jobStatus (Status : string) (StatusCode : Z) : string :=
  if TrimSpace_is_empty Status then
    let s := if StatusCode =? 0 then Status +:+ "Queue Paused, " else Status in
    TrimRight (add_flags StatusCode jobStatusFlags s) separators
  else Status.


(** * Properties *)

(** ** Bytes, strings and writes *)

Lemma byte_of_ascii_of_byte (b : Z) : byte_of_ascii (ascii_of_byte b) = uint8 b.
Proof.
  unfold byte_of_ascii, ascii_of_byte, uint8.
  assert (0 ≤ b mod 256 < 256) by (apply Z.mod_pos_bound; lia).
  rewrite N_ascii_embedding by lia. lia.
Qed.

Lemma bytes_of_string_of_bytes (l : list Z) :
  bytes_of_string (string_of_bytes l) = map uint8 l.
Proof.
  induction l as [|b l IH]; simpl; [done|].
  by rewrite byte_of_ascii_of_byte, IH.
Qed.

Lemma bytes_of_string_app (s t : string) :
  bytes_of_string (s +:+ t) = bytes_of_string s ++ bytes_of_string t.
Proof. induction s as [|c s IH]; simpl; [done|]. by rewrite IH. Qed.

Lemma length_bytes_of_string (s : string) :
  length (bytes_of_string s) = String.length s.
Proof. induction s as [|c s IH]; simpl; [done|]. by rewrite IH. Qed.

(** What [Write] leaves behind, on any buffer: the bytes are appended to
    what the spooler has, the toggles stay. *)
Lemma emitted_sent (b : list Z) (p : Printer) :
  emitted (sent b p) = emitted p ++ b.
Proof. unfold emitted; simpl. rewrite concat_app; simpl. by rewrite app_nil_r. Qed.

Lemma toggles_sent (b : list Z) (p : Printer) : toggles (sent b p) = toggles p.
Proof. done. Qed.

Lemma emitted_Write (b : list Z) (p : Printer) :
  emitted (Write b p).1 = emitted p ++ b.
Proof.
  destruct b as [|x b]; simpl.
  - by rewrite app_nil_r.
  - apply emitted_sent.
Qed.

Lemma toggles_Write (b : list Z) (p : Printer) :
  toggles (Write b p).1 = toggles p.
Proof. by destruct b. Qed.

Lemma Write_result (b : list Z) (p : Printer) :
  (Write b p).2 = if is_nil b then Panic IndexOutOfRange else Done tt.
Proof. by destruct b. Qed.

Lemma bind_Done {A B} (m : M A) (k : A → M B) (p p' : Printer) (a : A) :
  m p = (p', Done a) → bind m k p = k a p'.
Proof. intros H. unfold bind. by rewrite H. Qed.

(** ** Font size *)

Ltac one_to_eight w :=
  let H := fresh in
  assert (H : w = 1 ∨ w = 2 ∨ w = 3 ∨ w = 4 ∨ w = 5 ∨ w = 6 ∨ w = 7 ∨ w = 8)
    by lia;
  destruct H as [->|[->|[->|[->|[->|[->|[->| ->]]]]]]].

(** C1. For a width and a height both between 1 and 8, [SetFontSize]
    returns normally, records exactly that width and height (the other
    toggles are kept), and hands the spooler one buffer: GS, '!', and the
    single byte [((width-1)<<4)|(height-1)]. *)
Theorem SetFontSize_in_range (w h : Z) (p : Printer) :
  1 ≤ w ≤ 8 → 1 ≤ h ≤ 8 →
  let p' := (SetFontSize w h p).1 in
  (SetFontSize w h p).2 = Done tt
  ∧ width p' = w ∧ height p' = h
  ∧ (underline p', emphasize p', upsidedown p', rotate p', reverse p', smooth p')
    = (underline p, emphasize p, upsidedown p, rotate p, reverse p, smooth p)
  ∧ spool p' = spool p ++ [[0x1D; 0x21; Z.lor (Z.shiftl (w - 1) 4) (h - 1)]].
Proof.
  intros Hw Hh. one_to_eight w; one_to_eight h; repeat split; reflexivity.
Qed.

Lemma SetFontSize_in_range_witness :
  (SetFontSize 2 3 (opened spooler_up)).2 = Done tt
  ∧ width (SetFontSize 2 3 (opened spooler_up)).1 = 2
  ∧ height (SetFontSize 2 3 (opened spooler_up)).1 = 3
  ∧ spool (SetFontSize 2 3 (opened spooler_up)).1 = [[0x1D; 0x21; 0x12]].
Proof.
  destruct (SetFontSize_in_range 2 3 (opened spooler_up))
    as (Hr & Hw & Hh & _ & Hs); [lia|lia|].
  exact (conj Hr (conj Hw (conj Hh Hs))).
Defined.

(** C5. For a width or a height outside 1..8, [SetFontSize] stops with the
    fatal "Invalid font size" message and leaves the printer as it was:
    nothing is handed to the spooler and no toggle changes. *)
Theorem SetFontSize_out_of_range (w h : Z) (p : Printer) :
  ¬ (1 ≤ w ≤ 8 ∧ 1 ≤ h ≤ 8) →
  SetFontSize w h p = (p, Fatal (InvalidFontSize w h)).
Proof.
  intros H. unfold SetFontSize.
  destruct ((0 <? w) && (0 <? h) && (w <=? 8) && (h <=? 8)) eqn:E; [|done].
  exfalso. apply H.
  repeat (apply andb_prop in E as [E ?]). lia.
Qed.

Lemma SetFontSize_out_of_range_witness :
  SetFontSize 9 1 (opened spooler_up)
  = (opened spooler_up, Fatal (InvalidFontSize 9 1)).
Proof. apply (SetFontSize_out_of_range 9 1 (opened spooler_up)). lia. Defined.

(** ** Graphics frames *)

(** C7. [gSend] hands the spooler, in this order: ESC '(' 'L'; the low and
    then the high byte of [len(payload)+2], which together are that length
    as a 16-bit value; the mode byte; the function byte; the payload as it
    is. *)
Theorem gSend_frame (m fn : Z) (payload : list Z) (p : Printer) :
  let l := Z.of_nat (length payload) + 2 in
  emitted (gSend m fn payload p).1
  = emitted p ++ [0x1B; 0x28; 0x4C] ++ [l mod 256; l / 256 mod 256; m; fn] ++ payload
  ∧ l mod 256 + 256 * (l / 256 mod 256) = l mod 65536.
Proof.
  intros l. split.
  - unfold gSend. fold l. unfold bind; simpl.
    match goal with |- context [Write payload ?q] =>
      pose proof (emitted_Write payload q) as Hw;
      destruct (Write payload q) as [q' [[]| |]] eqn:E
    end; simpl in *; rewrite Hw; unfold emitted; simpl;
      rewrite !concat_app; simpl; unfold uint8;
      rewrite Z.mod_mod by lia; by rewrite <- !app_assoc.
  - change 65536 with (256 * 256). rewrite Z.rem_mul_r by lia. lia.
Qed.

(** A frame whose payload is not empty is sent in three buffers and
    [gSend] returns; on an empty payload the last [Write] panics once the
    seven header bytes are out. *)
Lemma gSend_result (m fn : Z) (payload : list Z) (p : Printer) :
  (gSend m fn payload p).2
  = if is_nil payload then Panic IndexOutOfRange else Done tt.
Proof. unfold gSend, bind; simpl. by destruct payload. Qed.

(** ** Dispatch *)

(** C8. For a node name other than text, feed, cut, pulse and image,
    [WriteNode] returns normally and leaves the printer as it was: the
    spooler is not called. *)
Theorem WriteNode_unknown (order : list (string * string)) (name : string)
    (params : gmap string string) (data : string) (p : Printer) :
  name ∉ ["text"; "feed"; "cut"; "pulse"; "image"] →
  WriteNode order name params data p = (p, Done tt).
Proof.
  intros H. unfold WriteNode.
  repeat match goal with
  | |- context [String.eqb name ?s] =>
      destruct (String.eqb_spec name s) as [->|_]; [exfalso; apply H; set_solver|]
  end.
  done.
Qed.

Lemma WriteNode_unknown_witness :
  WriteNode textReplaceEntries "barcode" {["align" := "left"]} "12345"
    (opened spooler_up)
  = (opened spooler_up, Done tt).
Proof.
  apply (WriteNode_unknown textReplaceEntries "barcode"
           {["align" := "left"]} "12345" (opened spooler_up)).
  intros H. repeat (apply elem_of_cons in H as [H|H]; [discriminate H|]).
  by apply elem_of_nil in H.
Defined.

(** ** Feed *)

Lemma uint8_low (x : Z) : uint8 (x mod 256) = x mod 256.
Proof. unfold uint8. apply Z.mod_mod. lia. Qed.

Lemma uint8_high (x : Z) : uint8 (uint16 x / 256) = uint16 x / 256.
Proof.
  unfold uint8, uint16. apply Z.mod_small.
  assert (0 ≤ x mod 65536 < 65536) by (apply Z.mod_pos_bound; lia).
  split; [apply Z.div_pos; lia | apply Z.div_lt_upper_bound; lia].
Qed.

(** Runs the writes of the goal and flattens what the spooler received. *)
Ltac sent_bytes :=
  unfold FormfeedN, SendMoveY, WriteString, bind; simpl;
  unfold emitted; simpl; rewrite ?bytes_of_string_of_bytes; simpl;
  rewrite !concat_app; simpl;
  rewrite ?byte_of_ascii_of_byte, ?uint8_low, ?uint8_high, ?app_nil_r,
    <- ?app_assoc; simpl; try reflexivity.

(** A run of [Feed] whose numeric parameters parse returns, with the
    toggles at their defaults. *)
Lemma Feed_returns (params : gmap string string) (p : Printer) :
  feed_params_ok params = true →
  (Feed params p).2 = Done tt ∧ toggles (Feed params p).1 = default_toggles.
Proof.
  unfold feed_params_ok, numeric_or_absent, Feed. intros H.
  apply andb_prop in H as [Hl Hu].
  destruct (params !! "line") as [l|]; simpl in *;
    [destruct (Atoi l) as [i|]; [|done]|];
    (destruct (params !! "unit") as [u|]; simpl in *;
       [destruct (Atoi u) as [j|]; [|done]|]);
    split; reflexivity.
Qed.

(** With a [line] or [unit] that is not an integer, [Feed] ends in
    [log.Fatalf]: the process is gone before the toggles are reset. *)
Lemma Feed_not_numeric (params : gmap string string) (p : Printer) :
  feed_params_ok params = false →
  ∃ e, (Feed params p).2 = Fatal e ∧ toggles (Feed params p).1 = toggles p.
Proof.
  unfold feed_params_ok, numeric_or_absent, Feed. intros H.
  destruct (params !! "line") as [l|]; simpl in *.
  - destruct (Atoi l) as [i|]; [|by eexists].
    destruct (params !! "unit") as [u|]; [|done]. simpl in *.
    destruct (Atoi u) as [j|]; [done|].
    eexists. unfold FormfeedN, WriteString, bind; simpl. done.
  - destruct (params !! "unit") as [u|]; [|done]. simpl in *.
    destruct (Atoi u) as [j|]; [done|]. by eexists.
Qed.

(** C2, as the code has it. For every parameter mapping whose [line] and
    [unit], when present, are integers, [Feed] returns after it has sent the
    form feed for [line] and the vertical move for [unit] (each only when
    given), one line feed, and, with the toggles back at their defaults,
    the escape sequences of emphasize, rotate, smooth, reverse, underline,
    upside-down, font size and underline once more, in this order, each at
    its default value. *)
Theorem Feed_emits (params : gmap string string) (p : Printer) :
  feed_params_ok params = true →
  (Feed params p).2 = Done tt
  ∧ toggles (Feed params p).1 = default_toggles
  ∧ emitted (Feed params p).1
    = emitted p ++ feed_moves params ++ [0x0A]
      ++ [0x1B; 0x47; 0] ++ [0x1B; 0x52; 0] ++ [0x1D; 0x62; 0]
      ++ [0x1D; 0x42; 0] ++ [0x1B; 0x2D; 0] ++ [0x1B; 0x7B; 0]
      ++ [0x1D; 0x21; 0] ++ [0x1B; 0x2D; 0].
Proof.
  intros H. destruct (Feed_returns params p H) as [Hr Ht].
  split; [done|split; [done|]]. clear Hr Ht. revert H.
  unfold feed_params_ok, numeric_or_absent, feed_moves, Feed. intros H.
  apply andb_prop in H as [Hl Hu].
  destruct (params !! "line") as [l|]; simpl in *.
  - destruct (Atoi l) as [i|]; [|done].
    destruct (params !! "unit") as [u|]; simpl in *.
    + destruct (Atoi u) as [j|]; [|done]. sent_bytes.
    + sent_bytes.
  - destruct (params !! "unit") as [u|]; simpl in *.
    + destruct (Atoi u) as [j|]; [|done]. sent_bytes.
    + sent_bytes.
Qed.

Lemma Feed_emits_witness :
  (Feed {["line" := "3"]} (opened spooler_up)).2 = Done tt
  ∧ toggles (Feed {["line" := "3"]} (opened spooler_up)).1 = default_toggles
  ∧ emitted (Feed {["line" := "3"]} (opened spooler_up)).1
    = [] ++ [0x1B; 0x64; 3] ++ [0x0A]
      ++ [0x1B; 0x47; 0] ++ [0x1B; 0x52; 0] ++ [0x1D; 0x62; 0]
      ++ [0x1D; 0x42; 0] ++ [0x1B; 0x2D; 0] ++ [0x1B; 0x7B; 0]
      ++ [0x1D; 0x21; 0] ++ [0x1B; 0x2D; 0].
Proof.
  generalize (Feed_emits {["line" := "3"]} (opened spooler_up)).
  vm_compute. intros H. apply H. reflexivity.
Defined.

(** C2 with the two underlines next to each other does not hold.  With no
    parameters the bytes are not the line feed followed by emphasize,
    rotate, smooth, reverse, underline, underline, upside-down, font size:
    the second underline comes last, after the font size.  And a [line]
    that is not a number ends the run in a fatal message with nothing
    sent. *)
Lemma Feed_order_counterexample :
  emitted (Feed ∅ (opened spooler_up)).1
  ≠ [0x0A]
    ++ [0x1B; 0x47; 0] ++ [0x1B; 0x52; 0] ++ [0x1D; 0x62; 0]
    ++ [0x1D; 0x42; 0] ++ [0x1B; 0x2D; 0] ++ [0x1B; 0x2D; 0]
    ++ [0x1B; 0x7B; 0] ++ [0x1D; 0x21; 0]
  ∧ Feed {["line" := "three"]} (opened spooler_up)
    = (opened spooler_up, Fatal (InvalidLine "three")).
Proof. split; [vm_compute; discriminate | vm_compute; reflexivity]. Qed.

(** C6. After [Init], and after every run of [Feed] that returns, the
    toggles are at their defaults: width and height 1, the six others 0.
    [Feed] returns exactly when [line] and [unit], if given, are integers;
    otherwise the process ends in a fatal message before the reset. *)
Theorem toggles_default_after_Init_and_Feed :
  (∀ p, (Init p).2 = Done tt ∧ toggles (Init p).1 = default_toggles)
  ∧ (∀ params p, feed_params_ok params = true →
       (Feed params p).2 = Done tt
       ∧ toggles (Feed params p).1 = default_toggles)
  ∧ (∀ params p, feed_params_ok params = false →
       ∃ e, (Feed params p).2 = Fatal e).
Proof.
  split; [|split].
  - intros p. split; reflexivity.
  - intros params p H. by apply Feed_returns.
  - intros params p H. destruct (Feed_not_numeric params p H) as (e & ? & _).
    by exists e.
Qed.

Lemma toggles_default_after_Init_and_Feed_witness :
  (Feed {["unit" := "40"]} (SetUnderline 1 (opened spooler_up)).1).2 = Done tt
  ∧ toggles (Feed {["unit" := "40"]} (SetUnderline 1 (opened spooler_up)).1).1
    = default_toggles.
Proof.
  apply (proj1 (proj2 toggles_default_after_Init_and_Feed)
           {["unit" := "40"]} (SetUnderline 1 (opened spooler_up)).1).
  vm_compute. reflexivity.
Defined.

(** ** Barcodes *)

(** C4, as the code has it. [Barcode] first sends ESC 'a' 1.  For a format
    above 69 it then sends GS 'k', the format code (empty outside the
    table), the length of the text in decimal digits and the text; for a
    format below 69, GS 'k', the code, the text and a NUL; for format 69
    nothing.  Whatever the format, the text is then written once more.  For
    format 70 and the text 12345 the spooler receives ESC 'a' 1, then
    GS 'k' '5' "12345", then "12345". *)
Theorem Barcode_emits (barcode : string) (format : Z) (p : Printer) :
  emitted (Barcode barcode format p).1
  = emitted p ++ [0x1B; 0x61; 1]
    ++ (if 69 <? format then
          [0x1D; 0x6B] ++ bytes_of_string (barcode_code format)
          ++ bytes_of_string (fmtV_int (len barcode)) ++ bytes_of_string barcode
        else if format <? 69 then
          [0x1D; 0x6B] ++ bytes_of_string (barcode_code format)
          ++ bytes_of_string barcode ++ [0]
        else [])
    ++ bytes_of_string barcode
  ∧ spool (Barcode "12345" 70 (opened spooler_up)).1
    = [ [0x1B; 0x61; 1];
        [0x1D; 0x6B; 0x35; 0x31; 0x32; 0x33; 0x34; 0x35];
        [0x31; 0x32; 0x33; 0x34; 0x35] ].
Proof.
  split; [|vm_compute; reflexivity].
  unfold Barcode, bind; simpl.
  destruct (69 <? format); [|destruct (format <? 69)]; simpl;
    unfold WriteString; rewrite emitted_Write, ?emitted_sent;
    rewrite ?bytes_of_string_app; unfold emitted; simpl;
    rewrite <- ?app_assoc; simpl; rewrite <- ?app_assoc; reflexivity.
Qed.

(** At format 69 the text is on the wire once, not twice: after ESC 'a' 1
    comes "12345" and nothing else, where a payload without length and
    terminator followed by the text again would be GS 'k' "12345" "12345". *)
Lemma Barcode_format_69_counterexample :
  Barcode "12345" 69 (opened spooler_up)
  = (sent (bytes_of_string "12345")
       (sent [0x1B; 0x61; 1] (reset (opened spooler_up)).1), Done tt)
  ∧ emitted (Barcode "12345" 69 (opened spooler_up)).1
    = [0x1B; 0x61; 1] ++ bytes_of_string "12345"
  ∧ emitted (Barcode "12345" 69 (opened spooler_up)).1
    ≠ [0x1B; 0x61; 1] ++ [0x1D; 0x6B] ++ bytes_of_string "12345"
      ++ bytes_of_string "12345".
Proof.
  split; [vm_compute; reflexivity|].
  split; [vm_compute; reflexivity|vm_compute; discriminate].
Qed.

(** An empty text makes the last [Write] panic, whatever the format. *)
Lemma Barcode_empty_text (format : Z) (p : Printer) :
  (Barcode "" format p).2 = Panic IndexOutOfRange.
Proof.
  unfold Barcode, bind; simpl.
  destruct (69 <? format); [|destruct (format <? 69)]; reflexivity.
Qed.

(** ** Text nodes *)

Lemma returns_seq (m k : M unit) : returns m → returns k → returns (m ;;; k).
Proof.
  intros Hm Hk p. destruct (Hm p) as [p1 H1]. destruct (Hk p1) as [p2 H2].
  exists p2. by rewrite (bind_Done _ _ _ _ _ H1).
Qed.

Lemma returns_skip : returns skip.
Proof. intros p. by exists p. Qed.

Lemma returns_when (c : bool) (m : M unit) : returns m → returns (when c m).
Proof. destruct c; [done|]. intros _. apply returns_skip. Qed.

Lemma returns_SetSmooth (v : Z) : returns (SetSmooth v).
Proof. intros p. by eexists. Qed.
Lemma returns_SetEmphasize (v : Z) : returns (SetEmphasize v).
Proof. intros p. by eexists. Qed.
Lemma returns_SetUnderline (v : Z) : returns (SetUnderline v).
Proof. intros p. by eexists. Qed.
Lemma returns_SetReverse (v : Z) : returns (SetReverse v).
Proof. intros p. by eexists. Qed.
Lemma returns_SetRotate (v : Z) : returns (SetRotate v).
Proof. intros p. by eexists. Qed.

Lemma returns_SetAlign (o : option string) :
  align_ok o = true → returns (if_present o SetAlign).
Proof.
  destruct o as [a|]; simpl; [|intros _; apply returns_skip].
  intros H p. unfold SetAlign.
  destruct (String.eqb a "left"); [by eexists|].
  destruct (String.eqb a "center"); [by eexists|].
  destruct (String.eqb a "right"); [by eexists|]. done.
Qed.

Lemma returns_SetLang (o : option string) :
  lang_ok o = true → returns (if_present o SetLang).
Proof.
  destruct o as [l|]; simpl; [|intros _; apply returns_skip].
  intros H p. unfold SetLang.
  repeat match goal with
  | |- context [String.eqb l ?s] => destruct (String.eqb l s); [by eexists|]
  end.
  done.
Qed.

Create HintDb returns.
#[local] Hint Resolve returns_skip returns_when returns_seq returns_SetSmooth
  returns_SetEmphasize returns_SetUnderline returns_SetReverse
  returns_SetRotate returns_SetAlign returns_SetLang : returns.

Lemma panics_seq_r (e : RuntimeError) (m k : M unit) :
  returns m → panics e k → panics e (m ;;; k).
Proof.
  intros Hm Hk p. destruct (Hm p) as [p1 H1].
  rewrite (bind_Done _ _ _ _ _ H1). apply Hk.
Qed.

Lemma panics_seq_l {A} (e : RuntimeError) (m : M A) (k : A → M unit) :
  (∀ p, (m p).2 = Panic e) → panics e (bind m k).
Proof.
  intros Hm p. specialize (Hm p). unfold bind.
  destruct (m p) as [p1 [a| |]]; simpl in *; congruence.
Qed.

(** C9, as the code has it. A text node whose [font] value has fewer than
    six bytes, and whose [align] and [lang], when given, are names that
    [SetAlign] and [SetLang] accept, ends in the slice panic of
    [font[5:6]]: no fatal message, no return. *)
Theorem Text_short_font_panics (order : list (string * string))
    (params : gmap string string) (data font : string) (p : Printer) :
  params !! "font" = Some font →
  (String.length font < 6)%nat →
  align_ok (params !! "align") = true →
  lang_ok (params !! "lang") = true →
  (Text order params data p).2 = Panic SliceOutOfRange.
Proof.
  intros Hfont Hlen Ha Hl. revert p.
  change (panics SliceOutOfRange (Text order params data)).
  unfold Text. rewrite Hfont.
  do 7 (apply panics_seq_r; [auto with returns|]).
  apply panics_seq_l. intros p. simpl. apply panics_seq_l. intros q.
  unfold slice. destruct (Nat.leb_spec 6 (String.length font)); [lia|done].
Qed.

Lemma Text_short_font_panics_witness :
  (Text textReplaceEntries
     (<["align" := "center"]> (<["em" := "1"]> {["font" := "B"]}))
     "total" (opened spooler_up)).2
  = Panic SliceOutOfRange.
Proof.
  apply (Text_short_font_panics textReplaceEntries
           (<["align" := "center"]> (<["em" := "1"]> {["font" := "B"]}))
           "total" "B" (opened spooler_up)).
  - vm_compute; reflexivity.
  - simpl; lia.
  - vm_compute; reflexivity.
  - vm_compute; reflexivity.
Defined.

(** With an [align] that [SetAlign] rejects, the run is over at the fatal
    message of [SetAlign], before the font is looked at: a short [font]
    value does not by itself lead to the panic. *)
Lemma Text_short_font_counterexample :
  (<["align" := "middle"]> {["font" := "A"]} : gmap string string) !! "font"
  = Some "A"
  ∧ (String.length "A" < 6)%nat
  ∧ Text textReplaceEntries (<["align" := "middle"]> {["font" := "A"]})
      "total" (opened spooler_up)
    = (opened spooler_up, Fatal (InvalidAlignment "middle")).
Proof.
  split; [vm_compute; reflexivity|]. split; [simpl; lia|].
  vm_compute; reflexivity.
Qed.

(** ** Images *)

(** With both dimensions present and numeric, [Image] is the alignment, the
    decoding and the two frames: the parsed numbers only go into a line of
    the process log. *)
Lemma Image_numeric (params : gmap string string) (data : string) (p : Printer) :
  numeric_present (params !! "width") = true →
  numeric_present (params !! "height") = true →
  Image params data p
  = (if_present (params !! "align") SetAlign ;;;
     let* dec :=
       (match DecodeString data with
        | Some d => ret d
        | None => Fatalf InvalidImageData
        end) in
     gSend 0x30 0x70 ([0x30; 0x01; 0x01; 0x31] ++ dec) ;;;
     gSend 0x30 0x32 []) p.
Proof.
  unfold numeric_present, Image. intros Hw Hh.
  destruct (params !! "width") as [w|]; [|done].
  destruct (params !! "height") as [h|]; [|done].
  destruct (Atoi w) as [i|] eqn:Ew; [|done].
  destruct (Atoi h) as [j|] eqn:Eh; [|done].
  unfold bind.
  destruct (if_present (params !! "align") SetAlign p) as [p1 [[]| |]];
    simpl; rewrite ?Ew; simpl; rewrite ?Eh; reflexivity.
Qed.

(** C10. Two image nodes with the same payload, the same parameters other
    than [width] and [height], and numeric [width] and [height] of any
    values run alike from the same printer: the same bytes reach the
    spooler (and the same state and result come back). *)
Theorem Image_ignores_dimensions (params1 params2 : gmap string string)
    (data : string) (p : Printer) :
  (∀ k, k ≠ "width" → k ≠ "height" → params1 !! k = params2 !! k) →
  numeric_present (params1 !! "width") = true →
  numeric_present (params1 !! "height") = true →
  numeric_present (params2 !! "width") = true →
  numeric_present (params2 !! "height") = true →
  emitted (Image params1 data p).1 = emitted (Image params2 data p).1
  ∧ Image params1 data p = Image params2 data p.
Proof.
  intros Hsame W1 H1 W2 H2.
  assert (E : Image params1 data p = Image params2 data p).
  { rewrite !Image_numeric by done. by rewrite (Hsame "align"). }
  split; [by rewrite E|done].
Qed.

Lemma Image_ignores_dimensions_witness :
  emitted (Image (<["width" := "2"]> (<["height" := "2"]> {["align" := "center"]}))
             "AAAAAA==" (opened spooler_up)).1
  = emitted (Image (<["width" := "384"]> (<["height" := "17"]> {["align" := "center"]}))
               "AAAAAA==" (opened spooler_up)).1.
Proof.
  apply (Image_ignores_dimensions
           (<["width" := "2"]> (<["height" := "2"]> {["align" := "center"]}))
           (<["width" := "384"]> (<["height" := "17"]> {["align" := "center"]}))
           "AAAAAA==" (opened spooler_up)).
  - intros k Hw Hh. by rewrite !lookup_insert_ne.
  - vm_compute; reflexivity.
  - vm_compute; reflexivity.
  - vm_compute; reflexivity.
  - vm_compute; reflexivity.
Defined.

(** What the frames of an image carry: the four zero bytes of the payload
    behind the header, framed with length 10, then the empty closing frame,
    on whose payload the last [Write] panics. *)
Example Image_four_zero_bytes :
  spool (Image (<["width" := "2"]> {["height" := "2"]}) "AAAAAA=="
           (opened spooler_up)).1
  = [ [0x1B; 0x28; 0x4C]; [10; 0; 0x30; 0x70]; [0x30; 1; 1; 0x31; 0; 0; 0; 0];
      [0x1B; 0x28; 0x4C]; [2; 0; 0x30; 0x32] ]
  ∧ (Image (<["width" := "2"]> {["height" := "2"]}) "AAAAAA=="
       (opened spooler_up)).2
    = Panic IndexOutOfRange.
Proof. vm_compute. split; reflexivity. Qed.

(** ** Entity substitution *)

Lemma textReplaceMap_keys : NoDup textReplaceEntries.*1.
Proof. apply (bool_decide_unpack _). vm_compute. reflexivity. Qed.

(** The order in which the source lists the entries is one possible order
    of the visit, and with it the ampersand is replaced last. *)
Lemma range_order_entries : range_order textReplaceMap textReplaceEntries.
Proof.
  unfold range_order, textReplaceMap. symmetry.
  apply map_to_list_to_map, textReplaceMap_keys.
Qed.

Lemma textReplace_listed_order :
  textReplace_in textReplaceEntries "&amp;lt;" = "&lt;".
Proof. reflexivity. Qed.

(** C3. The comment on the table wants the ampersand replaced last, but
    the loop ranges over a map: a visit that meets "&amp;" before "&lt;" is
    as possible as any other, and then [textReplace] turns "&amp;lt;" into
    "<", decoding twice. *)
Theorem textReplace_double_decodes : textReplace "&amp;lt;" "<".
Proof.
  exists (("&amp;", "&") :: removelast textReplaceEntries).
  split; [|reflexivity].
  unfold range_order. rewrite <- range_order_entries.
  simpl. apply Permutation_cons_append.
Qed.

(** ** What every operation leaves alone *)

Section relates_basic.
Context (R : relation Printer) `{!PreOrder R}.

Lemma relates_ret {A} (a : A) : relates R (ret a).
Proof. intros p. reflexivity. Qed.

Lemma relates_Fatalf {A} (e : ConfigurationError) : relates R (@Fatalf A e).
Proof. intros p. reflexivity. Qed.

Lemma relates_panic {A} (e : RuntimeError) : relates R (@panic A e).
Proof. intros p. reflexivity. Qed.

Lemma relates_get : relates R get.
Proof. intros p. reflexivity. Qed.

Lemma relates_bind {A B} (m : M A) (k : A → M B) :
  relates R m → (∀ a, relates R (k a)) → relates R (bind m k).
Proof.
  intros Hm Hk p. specialize (Hm p). unfold bind.
  destruct (m p) as [p1 [a| |]]; simpl in *; [|done..].
  etransitivity; [exact Hm|apply Hk].
Qed.

Lemma relates_Write (b : list Z) :
  (∀ p, R p (sent b p)) → relates R (Write b).
Proof. intros H p. destruct b; simpl; [reflexivity|apply H]. Qed.

Lemma relates_modify (f : Printer → Printer) :
  (∀ p, R p (f p)) → relates R (modify f).
Proof. intros Hf p. apply Hf. Qed.

Lemma relates_reset : (∀ p, R p (reset p).1) → relates R reset.
Proof. intros H p. apply H. Qed.

End relates_basic.

Ltac head_of t := lazymatch t with ?f _ => head_of f | _ => t end.

(** Walks through an operation: binds and branches, and at the leaves (the
    writes, the toggle updates, the reset) what [leaf] proves of one
    step. *)
Ltac frame_with leaf :=
  repeat first
    [ apply relates_bind; [apply _| |intros ?]
    | apply relates_ret; apply _
    | apply relates_Fatalf; apply _
    | apply relates_panic; apply _
    | apply relates_get; apply _
    | apply relates_Write; [apply _|intros ?; leaf]
    | apply relates_reset; intros ?; leaf
    | apply relates_modify; intros ?; leaf
    | match goal with
      | |- relates _ (if ?c then _ else _) => destruct c
      | |- relates _ (match ?o with _ => _ end) => destruct o
      | |- relates _ ?m => let h := head_of m in progress unfold h
      end ].

(** Relations that do not look at the toggles. *)
Section frame.
Context (R : relation Printer) `{!PreOrder R}.
Hypothesis R_sent : ∀ b p, R p (sent b p).
Hypothesis R_toggle : ∀ p q, same_spooler p q → R p q.

Ltac frame := frame_with ltac:(first [apply R_sent | by apply R_toggle]).

Lemma relates_Text order params data : relates R (Text order params data).
Proof. unfold Text. frame. Qed.

Lemma relates_Feed params : relates R (Feed params).
Proof. unfold Feed. frame. Qed.

Lemma relates_FeedAndCut params : relates R (FeedAndCut params).
Proof. unfold FeedAndCut. frame. Qed.

Lemma relates_Barcode barcode format : relates R (Barcode barcode format).
Proof. unfold Barcode. frame. Qed.

Lemma relates_Image params data : relates R (Image params data).
Proof. unfold Image. frame. Qed.

Lemma relates_WriteNode order name params data :
  relates R (WriteNode order name params data).
Proof.
  unfold WriteNode.
  repeat match goal with
  | |- relates _ (if ?c then _ else _) => destruct c
  end;
  auto using relates_Text, relates_Feed, relates_FeedAndCut, relates_Image.
  all: frame.
Qed.

End frame.

Lemma grows_preorder : PreOrder grows.
Proof.
  split.
  - intros p. by repeat split.
  - intros p q r (HD1 & Ho1 & Hs1 & Hd1) (HD2 & Ho2 & Hs2 & Hd2).
    repeat split; try congruence; by etransitivity.
Qed.
#[local] Existing Instance grows_preorder.

Lemma grows_sent (b : list Z) (p : Printer) : grows p (sent b p).
Proof.
  repeat split; simpl.
  - by apply prefix_app_r.
  - destruct (_ && _); [by apply prefix_app_r|done].
Qed.

Lemma grows_toggle (p q : Printer) : same_spooler p q → grows p q.
Proof. intros (HD & Hd & Hs & Ho). repeat split; try done; by rewrite ?Hd, ?Hs. Qed.

(** X1. No node operation and no barcode ever takes back what went to the
    spooler: after [WriteNode] or [Barcode], however it ends, the buffers
    sent before are still the first ones, [data] has only grown, and the
    [Debug] flag and the spooler are the same. *)
Theorem node_only_appends (order : list (string * string))
    (name : string) (params : gmap string string) (data barcode : string)
    (format : Z) (p : Printer) :
  grows p (WriteNode order name params data p).1
  ∧ grows p (Barcode barcode format p).1.
Proof.
  split.
  - apply (relates_WriteNode grows grows_sent grows_toggle).
  - apply (relates_Barcode grows grows_sent grows_toggle).
Qed.

Lemma mirrors_kept_preorder : PreOrder mirrors_kept.
Proof. split; unfold mirrors_kept; [intros p; done|intros p q r; auto]. Qed.
#[local] Existing Instance mirrors_kept_preorder.

Lemma mirrors_sent (b : list Z) (p : Printer) : mirrors_kept p (sent b p).
Proof.
  intros (HD & Ho & Hd). repeat split; simpl; [done..|].
  rewrite Ho, HD; simpl. by rewrite emitted_sent, Hd.
Qed.

Lemma mirrors_toggle (p q : Printer) : same_spooler p q → mirrors_kept p q.
Proof.
  intros (HD & Hd & Hs & Ho) (HD' & Ho' & Hd'). unfold mirrors, emitted in *.
  rewrite HD, Hd, Hs, Ho. done.
Qed.

(** X2. With [Debug] set and a spooler that accepts every call, [data]
    stays an exact copy of the bytes sent: if it is one before a node
    operation or a barcode, it is one after, however the operation ends. *)
Theorem debug_copy_kept (order : list (string * string))
    (name : string) (params : gmap string string) (data barcode : string)
    (format : Z) (p : Printer) :
  mirrors p →
  mirrors (WriteNode order name params data p).1
  ∧ mirrors (Barcode barcode format p).1.
Proof.
  intros H. split.
  - by apply (relates_WriteNode mirrors_kept mirrors_sent
            mirrors_toggle).
  - by apply (relates_Barcode mirrors_kept mirrors_sent
            mirrors_toggle).
Qed.

Lemma debug_copy_kept_witness :
  mirrors (WriteNode textReplaceEntries "text" {["em" := "1"]} "total"
             (mkPrinter 1 1 0 0 0 0 0 0 true [] [] spooler_up)).1
  ∧ mirrors (Barcode "12345" 4
               (mkPrinter 1 1 0 0 0 0 0 0 true [] [] spooler_up)).1.
Proof.
  apply (debug_copy_kept textReplaceEntries "text" {["em" := "1"]} "total"
           "12345" 4 (mkPrinter 1 1 0 0 0 0 0 0 true [] [] spooler_up)).
  repeat split; reflexivity.
Defined.

Lemma nothing_kept_preorder : PreOrder nothing_kept.
Proof.
  split.
  - intros p. by repeat split.
  - intros p q r (HD1 & Ho1 & Hd1) (HD2 & Ho2 & Hd2).
    repeat split; try congruence. intros H.
    rewrite Hd2, Hd1; [done..|]. unfold keeps_nothing. by rewrite HD1, Ho1.
Qed.
#[local] Existing Instance nothing_kept_preorder.

Lemma nothing_kept_sent (b : list Z) (p : Printer) : nothing_kept p (sent b p).
Proof.
  repeat split. simpl. intros [H|H]; rewrite H; [|done].
  by rewrite andb_false_r.
Qed.

Lemma nothing_kept_toggle (p q : Printer) :
  same_spooler p q → nothing_kept p q.
Proof. intros (HD & Hd & Hs & Ho). by repeat split. Qed.

(** X3. With [Debug] off, or with a spooler that refuses every call, no
    node operation and no barcode writes to [data]. *)
Theorem data_untouched (order : list (string * string))
    (name : string) (params : gmap string string) (data' barcode : string)
    (format : Z) (p : Printer) :
  keeps_nothing p →
  data (WriteNode order name params data' p).1 = data p
  ∧ data (Barcode barcode format p).1 = data p.
Proof.
  intros H. split.
  - by apply (relates_WriteNode nothing_kept
                nothing_kept_sent nothing_kept_toggle).
  - by apply (relates_Barcode nothing_kept
                nothing_kept_sent nothing_kept_toggle).
Qed.

Lemma data_untouched_witness :
  data (WriteNode textReplaceEntries "feed" {["line" := "2"]} ""
          (opened spooler_up)).1 = []
  ∧ data (Barcode "12345" 70 (opened spooler_up)).1 = [].
Proof.
  apply (data_untouched textReplaceEntries "feed" {["line" := "2"]} ""
           "12345" 70 (opened spooler_up)).
  left. reflexivity.
Defined.

(** ** The verb [%c] on the wire *)

Lemma validRune_small (c : Z) : 0 ≤ c ≤ 255 → validRune c = true.
Proof.
  intros H. unfold validRune.
  destruct (Z.leb_spec 0 c), (Z.leb_spec c 0x10FFFF),
    (Z.leb_spec 0xD800 c); simpl; lia || done.
Qed.

Lemma fmtC_ascii (c : Z) : 0 ≤ c ≤ 127 → bytes_of_string (fmtC c) = [c].
Proof.
  intros H. unfold fmtC, AppendRune.
  rewrite validRune_small by lia.
  destruct (Z.leb_spec c 0x7F); [|lia]. simpl.
  rewrite byte_of_ascii_of_byte. unfold uint8. by rewrite Z.mod_small by lia.
Qed.

Lemma AppendRune_latin1 (c : Z) :
  128 ≤ c ≤ 255 → AppendRune c = [0xC0 + c / 64; 0x80 + c mod 64].
Proof.
  intros H.
  assert (Hall : Forall (λ c, AppendRune c = [0xC0 + c / 64; 0x80 + c mod 64])
                   (seqZ 128 128)).
  { apply (bool_decide_unpack _). vm_compute. reflexivity. }
  rewrite Forall_forall in Hall. apply Hall, elem_of_seqZ. lia.
Qed.

Lemma fmtC_latin1 (c : Z) :
  128 ≤ c ≤ 255 → bytes_of_string (fmtC c) = [0xC0 + c / 64; 0x80 + c mod 64].
Proof.
  intros H. unfold fmtC. rewrite AppendRune_latin1 by done.
  rewrite bytes_of_string_of_bytes. simpl. unfold uint8.
  assert (2 ≤ c / 64 ≤ 3).
  { split; [apply Z.div_le_lower_bound; lia|].
    apply Z.lt_succ_r, Z.div_lt_upper_bound; lia. }
  assert (0 ≤ c mod 64 < 64) by (apply Z.mod_pos_bound; lia).
  by rewrite !Z.mod_small by lia.
Qed.



(** ** Toggles *)

(** X5. Each of the six setters, given a value from 0 to 127, records it
    in its own toggle, leaves the other toggles alone, and sends the three
    bytes of its escape sequence with the value as the last one. *)
Theorem setters_send_value (v : Z) (p : Printer) :
  0 ≤ v ≤ 127 →
  SetUnderline v p = (sent [0x1B; 0x2D; v] (set_underline v p), Done tt)
  ∧ SetEmphasize v p = (sent [0x1B; 0x47; v] (set_emphasize v p), Done tt)
  ∧ SetUpsidedown v p = (sent [0x1B; 0x7B; v] (set_upsidedown v p), Done tt)
  ∧ SetRotate v p = (sent [0x1B; 0x52; v] (set_rotate v p), Done tt)
  ∧ SetReverse v p = (sent [0x1D; 0x42; v] (set_reverse v p), Done tt)
  ∧ SetSmooth v p = (sent [0x1D; 0x62; v] (set_smooth v p), Done tt).
Proof.
  intros H.
  unfold SetUnderline, SetEmphasize, SetUpsidedown, SetRotate, SetReverse,
    SetSmooth, SendUnderline, SendEmphasize, SendUpsidedown, SendRotate,
    SendReverse, SendSmooth, WriteString, bind; simpl.
  change ("" +:+ fmtC v) with (fmtC v).
  rewrite fmtC_ascii by done. repeat split; reflexivity.
Qed.

Lemma setters_send_value_witness :
  SetUnderline 1 (opened spooler_up)
  = (sent [0x1B; 0x2D; 1] (set_underline 1 (opened spooler_up)), Done tt).
Proof. apply (setters_send_value 1 (opened spooler_up)). lia. Defined.

(** X6. A value from 128 to 255 is accepted by the setters too, but it does
    not reach the printer as one byte: the escape sequence ends in the two
    bytes [0xC0 + v/64] and [0x80 + v mod 64] that UTF-8 gives the code
    point. *)
Theorem setters_high_values (v : Z) (p : Printer) :
  128 ≤ v ≤ 255 →
  let hi := 0xC0 + v / 64 in
  let lo := 0x80 + v mod 64 in
  SetUnderline v p = (sent [0x1B; 0x2D; hi; lo] (set_underline v p), Done tt)
  ∧ SetEmphasize v p = (sent [0x1B; 0x47; hi; lo] (set_emphasize v p), Done tt)
  ∧ SetUpsidedown v p = (sent [0x1B; 0x7B; hi; lo] (set_upsidedown v p), Done tt)
  ∧ SetRotate v p = (sent [0x1B; 0x52; hi; lo] (set_rotate v p), Done tt)
  ∧ SetReverse v p = (sent [0x1D; 0x42; hi; lo] (set_reverse v p), Done tt)
  ∧ SetSmooth v p = (sent [0x1D; 0x62; hi; lo] (set_smooth v p), Done tt).
Proof.
  intros H hi lo.
  unfold SetUnderline, SetEmphasize, SetUpsidedown, SetRotate, SetReverse,
    SetSmooth, SendUnderline, SendEmphasize, SendUpsidedown, SendRotate,
    SendReverse, SendSmooth, WriteString, bind; simpl.
  change ("" +:+ fmtC v) with (fmtC v).
  rewrite fmtC_latin1 by done. repeat split; reflexivity.
Qed.

Lemma setters_high_values_witness :
  SetUnderline 200 (opened spooler_up)
  = (sent [0x1B; 0x2D; 0xC3; 0x88] (set_underline 200 (opened spooler_up)),
     Done tt).
Proof. apply (setters_high_values 200 (opened spooler_up)). lia. Defined.

(** X7. The size byte can be read back: for a width and a height from 1
    to 8 it is below 128, its high four bits are the width less one and its
    low four bits the height less one, so two different sizes never share
    a byte. *)
Theorem font_size_byte_decodes (w h : Z) :
  1 ≤ w ≤ 8 → 1 ≤ h ≤ 8 →
  0 ≤ font_size_byte w h ≤ 127
  ∧ font_size_byte w h / 16 + 1 = w
  ∧ font_size_byte w h mod 16 + 1 = h.
Proof.
  intros Hw Hh.
  one_to_eight w; one_to_eight h; repeat split; try reflexivity;
    vm_compute; discriminate.
Qed.

Lemma font_size_byte_decodes_witness :
  0 ≤ font_size_byte 3 8 ≤ 127
  ∧ font_size_byte 3 8 / 16 + 1 = 3
  ∧ font_size_byte 3 8 mod 16 + 1 = 8.
Proof. apply (font_size_byte_decodes 3 8); lia. Defined.

(** ** Positions *)

(** X8. For a distance that fits 16 bits, [SendMoveX] and [SendMoveY] send
    ESC '$' and GS '$' followed by two bytes, low one first, from which the
    distance is recovered as [lo + 256 * hi]. *)
Theorem SendMove_little_endian (x : Z) (p : Printer) :
  0 ≤ x < 65536 →
  SendMoveX x p = (sent [0x1B; 0x24; x mod 256; x / 256] p, Done tt)
  ∧ SendMoveY x p = (sent [0x1D; 0x24; x mod 256; x / 256] p, Done tt)
  ∧ 0 ≤ x mod 256 < 256 ∧ 0 ≤ x / 256 < 256
  ∧ x mod 256 + 256 * (x / 256) = x.
Proof.
  intros H.
  assert (Hhi : 0 ≤ x / 256 < 256).
  { split; [apply Z.div_pos; lia|apply Z.div_lt_upper_bound; lia]. }
  assert (Hlo : 0 ≤ x mod 256 < 256) by (apply Z.mod_pos_bound; lia).
  split; [|split; [|split; [done|split; [done|]]]].
  - unfold SendMoveX, WriteString. rewrite bytes_of_string_of_bytes. simpl.
    unfold uint8. rewrite !Z.mod_mod by lia.
    rewrite !(Z.mod_small (x / 256)) by lia. reflexivity.
  - unfold SendMoveY, WriteString. rewrite bytes_of_string_of_bytes. simpl.
    unfold uint8. rewrite !Z.mod_mod by lia.
    rewrite !(Z.mod_small (x / 256)) by lia. reflexivity.
  - pose proof (Z.div_mod x 256). lia.
Qed.

Lemma SendMove_little_endian_witness :
  SendMoveX 300 (opened spooler_up)
  = (sent [0x1B; 0x24; 44; 1] (opened spooler_up), Done tt).
Proof. apply (SendMove_little_endian 300 (opened spooler_up)). lia. Defined.

(** ** Language and rotation *)

(** X9. Choosing a language sends the very bytes that setting the rotate
    toggle to the language's number (0 to 9) sends, ESC 'R' and that
    number, but the rotate toggle the printer object records stays what it
    was. *)
Theorem SetLang_sends_rotate (lang : string) (p : Printer) :
  lang_ok (Some lang) = true →
  ∃ l, 0 ≤ l ≤ 9
    ∧ (SetLang lang p).2 = Done tt
    ∧ spool (SetLang lang p).1 = spool (SetRotate l p).1
    ∧ spool (SetLang lang p).1 = spool p ++ [[0x1B; 0x52; l]]
    ∧ toggles (SetLang lang p).1 = toggles p.
Proof.
  unfold lang_ok, SetLang; simpl. intros H.
  repeat match goal with
  | |- context [String.eqb lang ?s] =>
      destruct (String.eqb lang s);
        [eexists; split; [|repeat split; reflexivity]; lia|]
  end.
  discriminate.
Qed.

Lemma SetLang_sends_rotate_witness :
  ∃ l, 0 ≤ l ≤ 9
    ∧ (SetLang "fr" (opened spooler_up)).2 = Done tt
    ∧ spool (SetLang "fr" (opened spooler_up)).1
      = spool (SetRotate l (opened spooler_up)).1
    ∧ spool (SetLang "fr" (opened spooler_up)).1
      = spool (opened spooler_up) ++ [[0x1B; 0x52; l]]
    ∧ toggles (SetLang "fr" (opened spooler_up)).1
      = toggles (opened spooler_up).
Proof. apply (SetLang_sends_rotate "fr" (opened spooler_up)). reflexivity. Defined.

(** ** Cutting *)

(** X10. [FeedAndCut] always returns and leaves the toggles alone.  It sends
    the cut GS 'V' 'A' '0', and before it one form feed ESC 'd' 1 exactly
    when the parameter [type] is [feed]; every other parameter, and every
    other value of [type], changes nothing. *)
Theorem FeedAndCut_emits (params : gmap string string) (p : Printer) :
  (FeedAndCut params p).2 = Done tt
  ∧ toggles (FeedAndCut params p).1 = toggles p
  ∧ spool (FeedAndCut params p).1
    = spool p
      ++ (if decide (params !! "type" = Some "feed") then [[0x1B; 0x64; 1]]
          else [])
      ++ [[0x1D; 0x56; 0x41; 0x30]].
Proof.
  unfold FeedAndCut.
  destruct (params !! "type") as [t|]; [|by case_decide].
  destruct (String.eqb_spec t "feed") as [->|Hne].
  - case_decide; [|done]. repeat split. simpl. by rewrite <- app_assoc.
  - case_decide; [congruence|]. by repeat split.
Qed.

(** ** Barcodes, continued *)

(** X11. [Barcode] returns exactly when the text is not empty (on an empty
    text the last [Write] panics), and in both cases it leaves every toggle
    at its default without sending any of the toggles' escape sequences:
    what the printer was told before stays in force while the printer
    object forgets it. *)
Theorem Barcode_resets_silently (barcode : string) (format : Z) (p : Printer) :
  ((Barcode barcode format p).2 = Done tt ↔ barcode ≠ "")
  ∧ ((Barcode barcode format p).2 = Panic IndexOutOfRange ↔ barcode = "")
  ∧ toggles (Barcode barcode format p).1 = default_toggles.
Proof.
  unfold Barcode, bind; simpl.
  destruct (69 <? format); [|destruct (format <? 69)]; simpl;
    destruct barcode; simpl; repeat split; intros; congruence.
Qed.

(** ** Entity substitution, whatever the order of the visit *)

Lemma range_order_perm (order : list (string * string)) :
  range_order textReplaceMap order → order ≡ₚ textReplaceEntries.
Proof. intros H. unfold range_order in *. by rewrite H, <- range_order_entries. Qed.

Lemma prefix_other_head (a c : ascii) (s1 s2 : string) :
  a ≠ c → String.prefix (String a s1) (String c s2) = false.
Proof.
  intros H.
  change (String.prefix (String a s1) (String c s2))
    with (if ascii_dec a c then String.prefix s1 s2 else false).
  by destruct (ascii_dec a c).
Qed.

Lemma replace_go_step (old new : string) (c : ascii) (s : string) :
  replace_go old new O (String c s)
  = if String.prefix old (String c s)
    then new +:+ replace_go old new (String.length old - 1) s
    else String c (replace_go old new O s).
Proof. reflexivity. Qed.

Lemma replace_go_no_ampersand (old' new s : string) :
  no_ampersand s → replace_go (String "&" old') new O s = s.
Proof.
  unfold no_ampersand. induction s as [|c s IH]; [done|]. intros H.
  rewrite replace_go_step, prefix_other_head.
  - rewrite IH; [done|]. intros Hin. apply H. by right.
  - intros <-. apply H. by left.
Qed.

Lemma keys_start_with_ampersand :
  Forall (λ kv : string * string, ∃ r, kv.1 = String "&" r) textReplaceEntries.
Proof. repeat constructor; by eexists. Qed.

Lemma foldl_Replace_no_ampersand (l : list (string * string)) (s : string) :
  Forall (λ kv : string * string, ∃ r, kv.1 = String "&" r) l →
  no_ampersand s → textReplace_in l s = s.
Proof.
  intros Hk Hs. unfold textReplace_in.
  induction Hk as [|[k v] l [r Hr] _ IH]; simpl; [done|].
  simpl in Hr. subst k. unfold Replace at 2.
  by rewrite replace_go_no_ampersand.
Qed.

(** X12. A text without an ampersand comes out of [textReplace] as it went
    in, whatever order the range over the map takes. *)
Theorem textReplace_plain_text (order : list (string * string)) (data : string) :
  range_order textReplaceMap order →
  no_ampersand data →
  textReplace_in order data = data.
Proof.
  intros Ho Hd. apply foldl_Replace_no_ampersand; [|done].
  rewrite (range_order_perm _ Ho). apply keys_start_with_ampersand.
Qed.

Lemma textReplace_plain_text_witness :
  textReplace_in textReplaceEntries "Total: 29.90" = "Total: 29.90".
Proof.
  apply (textReplace_plain_text textReplaceEntries "Total: 29.90").
  - apply range_order_entries.
  - unfold no_ampersand. simpl. intros H.
    repeat (destruct H as [H|H]; [discriminate H|]). done.
Defined.

Lemma replace_go_absent (old new s : string) :
  occurs old s = false → replace_go old new O s = s.
Proof.
  induction s as [|c s IH]; [done|]. intros H.
  change (occurs old (String c s))
    with (String.prefix old (String c s) || occurs old s) in H.
  apply orb_false_elim in H as [Hp Ho].
  rewrite replace_go_step, Hp. by rewrite IH.
Qed.

Lemma foldl_Replace_absent (l : list (string * string)) (s : string) :
  Forall (λ kv : string * string, occurs kv.1 s = false) l →
  textReplace_in l s = s.
Proof.
  unfold textReplace_in. induction 1 as [|[k v] l Hk _ IH]; simpl; [done|].
  simpl in Hk. unfold Replace at 2. by rewrite replace_go_absent.
Qed.

(** No key of the table occurs inside another key, none occurs in a
    replacement, and each key as a whole text becomes its replacement. *)
Lemma entries_apart :
  Forall (λ kv : string * string,
    Forall (λ kv' : string * string,
      kv'.1 = kv.1 ∨ occurs kv'.1 kv.1 = false) textReplaceEntries
    ∧ Forall (λ kv' : string * string,
        occurs kv'.1 kv.2 = false) textReplaceEntries
    ∧ Replace kv.1 kv.1 kv.2 = kv.2) textReplaceEntries.
Proof. apply (bool_decide_unpack _). vm_compute. reflexivity. Qed.

(** X13. Each entity of the table, as a whole text, is decoded to its own
    replacement, whatever order the range over the map takes: the order
    only matters for texts in which the replacements meet. *)
Theorem textReplace_single_entity (order : list (string * string))
    (k v : string) :
  range_order textReplaceMap order →
  textReplaceMap !! k = Some v →
  textReplace_in order k = v.
Proof.
  intros Ho Hkv. apply range_order_perm in Ho.
  assert (Hin : (k, v) ∈ textReplaceEntries).
  { by apply (elem_of_list_to_map _ _ _ textReplaceMap_keys). }
  pose proof entries_apart as Ha. rewrite Forall_forall in Ha.
  destruct (Ha _ Hin) as (Hkeys & Hvals & Hself). simpl in *.
  assert (Hnd : NoDup order.*1) by (rewrite Ho; apply textReplaceMap_keys).
  rewrite <- Ho in Hkeys, Hvals, Hin.
  apply list_elem_of_split in Hin as (l1 & l2 & ->).
  rewrite fmap_app, fmap_cons in Hnd. simpl in Hnd.
  apply NoDup_app in Hnd as (_ & Hdisj & Hnd2).
  apply NoDup_cons in Hnd2 as [Hk2 _].
  apply Forall_app in Hkeys as [Hk1 _].
  apply Forall_app in Hvals as [_ Hv2]. apply Forall_cons in Hv2 as [_ Hv2].
  unfold textReplace_in. rewrite foldl_app. simpl.
  fold (textReplace_in l1 k). rewrite foldl_Replace_absent.
  - rewrite Hself. by apply foldl_Replace_absent.
  - rewrite Forall_forall in Hk1 |- *. intros [k' v'] Hin'.
    destruct (Hk1 _ Hin') as [Heq|Hocc]; [|done]. simpl in *. subst k'.
    exfalso. apply (Hdisj k).
    + apply list_elem_of_fmap. by exists (k, v').
    + left.
Qed.

Lemma textReplace_single_entity_witness :
  textReplace_in textReplaceEntries "&quot;" = String "034" "".
Proof.
  apply (textReplace_single_entity textReplaceEntries "&quot;" (String "034" "")).
  - apply range_order_entries.
  - vm_compute. reflexivity.
Defined.

(** ** Text nodes, continued *)

Lemma set_or_kept_preorder : PreOrder set_or_kept.
Proof.
  split.
  - intros p. unfold set_or_kept. tauto.
  - intros p q r. unfold set_or_kept. intuition congruence.
Qed.
#[local] Existing Instance set_or_kept_preorder.

(** X14. A text node never switches a toggle off and never touches the
    upside-down toggle: whatever its parameters and however it ends,
    smooth, emphasize, underline, reverse and rotate are each what they
    were before or 1. *)
Theorem Text_never_clears (order : list (string * string))
    (params : gmap string string) (data : string) (p : Printer) :
  set_or_kept p (Text order params data p).1.
Proof.
  revert p. change (relates set_or_kept (Text order params data)).
  unfold Text.
  frame_with ltac:(unfold set_or_kept; simpl; tauto).
Qed.

(** X15. On parameters that name no value to read and set no switch to
    [true] or [1] (unknown keys and switches with other values are passed
    over in silence), a text node with a payload free of ampersands returns
    with the toggles as they were; it sends the payload as one buffer, or
    nothing at all when the payload is empty. *)
Theorem Text_plain_payload (order : list (string * string))
    (params : gmap string string) (data : string) (p : Printer) :
  range_order textReplaceMap order →
  text_inert params = true →
  no_ampersand data →
  Text order params data p
  = (if decide (data = "") then p else sent (bytes_of_string data) p, Done tt).
Proof.
  intros Ho Hp Hd. unfold text_inert in Hp. simpl in Hp.
  repeat match goal with
  | H : _ && _ = true |- _ => apply andb_prop in H as [? ?]
  | H : bool_decide _ = true |- _ => apply bool_decide_eq_true in H
  | H : negb _ = true |- _ => apply negb_true_iff in H
  end.
  unfold Text.
  repeat match goal with
  | H : params !! _ = None |- _ => rewrite H; clear H
  | H : truthy _ = false |- _ => rewrite H; clear H
  end.
  rewrite foldl_Replace_no_ampersand; [|
    rewrite (range_order_perm _ Ho); apply keys_start_with_ampersand|done].
  destruct data as [|c s]; [reflexivity|].
  case_decide; [discriminate|]. unfold len. reflexivity.
Qed.

Lemma Text_plain_payload_witness :
  Text textReplaceEntries (<["em" := "no"]> {["color" := "red"]}) "Pickup"
    (opened spooler_up)
  = (if decide ("Pickup" = "") then opened spooler_up
     else sent (bytes_of_string "Pickup") (opened spooler_up), Done tt).
Proof.
  apply (Text_plain_payload textReplaceEntries
           (<["em" := "no"]> {["color" := "red"]}) "Pickup"
           (opened spooler_up)).
  - apply range_order_entries.
  - vm_compute. reflexivity.
  - unfold no_ampersand. simpl. intros H.
    repeat (destruct H as [H|H]; [discriminate H|]). done.
Defined.

Lemma SetFontSize_run (w h : Z) (p : Printer) :
  1 ≤ w ≤ 8 → 1 ≤ h ≤ 8 →
  SetFontSize w h p
  = (sent [0x1D; 0x21; font_size_byte w h] (set_height h (set_width w p)),
     Done tt).
Proof. intros Hw Hh. one_to_eight w; one_to_eight h; reflexivity. Qed.

(** X16. The [width] of a text node is cut down to eight bits before it is
    checked: with no other parameter that [Text] reads, a numeric [width]
    whose value modulo 256 is from 1 to 8 is accepted, however large or
    negative the number itself, and that remainder becomes the width (the
    height, from 1 to 8, is kept). *)
Theorem Text_width_wraps (order : list (string * string))
    (params : gmap string string) (w data : string) (i : Z) (p : Printer) :
  text_inert (delete "width" params) = true →
  params !! "width" = Some w →
  Atoi w = Some i →
  1 ≤ i mod 256 ≤ 8 →
  1 ≤ height p ≤ 8 →
  (Text order params data p).2 = Done tt
  ∧ width (Text order params data p).1 = i mod 256
  ∧ height (Text order params data p).1 = height p
  ∧ ∃ rest, spool (Text order params data p).1
      = spool p ++ [0x1D; 0x21; font_size_byte (i mod 256) (height p)] :: rest.
Proof.
  intros Hp Hw Hi Hr Hh. unfold text_inert in Hp. simpl in Hp.
  repeat match goal with
  | H : _ && _ = true |- _ => apply andb_prop in H as [? ?]
  | H : bool_decide _ = true |- _ => apply bool_decide_eq_true in H
  | H : negb _ = true |- _ => apply negb_true_iff in H
  end.
  repeat match goal with
  | H : context [delete "width" params !! ?k] |- _ =>
      first [rewrite lookup_delete_ne in H by done | clear H]
  end.
  unfold Text.
  repeat match goal with
  | H : params !! _ = None |- _ => rewrite H; clear H
  | H : truthy _ = false |- _ => rewrite H; clear H
  end.
  rewrite Hw. unfold bind, if_present, when, skip, ret, get. simpl.
  rewrite Hi. simpl. unfold uint8.
  rewrite (SetFontSize_run (i mod 256) (height p)) by done. simpl.
  destruct (textReplace_in order data) as [|c s]; unfold len; simpl.
  - repeat split. by eexists.
  - repeat split. rewrite <- app_assoc. by eexists.
Qed.

Lemma Text_width_wraps_witness :
  (Text textReplaceEntries {["width" := "257"]} "Pickup"
     (Init (opened spooler_up)).1).2 = Done tt
  ∧ width (Text textReplaceEntries {["width" := "257"]} "Pickup"
             (Init (opened spooler_up)).1).1 = 257 mod 256.
Proof.
  destruct (Text_width_wraps textReplaceEntries {["width" := "257"]} "257"
              "Pickup" 257 (Init (opened spooler_up)).1)
    as (Hr & Hw & _); try (vm_compute; reflexivity).
  - vm_compute. split; discriminate.
  - vm_compute. split; discriminate.
  - exact (conj Hr Hw).
Defined.

(** ** Images, continued *)

Lemma gSend_run (m fn : Z) (payload : list Z) (p : Printer) :
  let l := Z.of_nat (length payload) + 2 in
  let q := sent [l mod 256; l / 256 mod 256; m; fn] (sent [0x1B; 0x28; 0x4C] p) in
  gSend m fn payload p
  = if is_nil payload then (q, Panic IndexOutOfRange)
    else (sent payload q, Done tt).
Proof.
  intros l q. unfold gSend, bind; simpl. fold l. unfold uint8.
  rewrite Z.mod_mod by lia. by destruct payload.
Qed.

Lemma never_returns_bind {A B} (m : M A) (k : A → M B) :
  (∀ a, never_returns (k a)) → never_returns (bind m k).
Proof.
  intros Hk p b. unfold bind.
  destruct (m p) as [p1 [a| |]]; simpl; [apply Hk|done..].
Qed.

(** X17. An image node never returns.  When nothing else stops it first,
    it gets as far as the closing frame, whose payload is empty, and there
    the last [Write] panics; so does [WriteNode] on the name [image]. *)
Theorem Image_never_returns (order : list (string * string))
    (params : gmap string string) (data : string) (p : Printer) :
  (Image params data p).2 ≠ Done tt
  ∧ (WriteNode order "image" params data p).2 ≠ Done tt.
Proof.
  assert (H : never_returns (Image params data)).
  { unfold Image. repeat (apply never_returns_bind; intros ?).
    intros q r. simpl. discriminate. }
  split; apply H.
Qed.

(** X18. An image node with numeric [width] and [height], an [align] that
    is absent or valid, and a payload that decodes: after the alignment it
    sends the frame ESC '(' 'L' with the length of the image data plus six,
    mode '0', function 'p', the header '0' 1 1 '1' and the decoded data,
    then the seven bytes that open the closing frame ESC '(' 'L' 2 0 '0'
    '2', and ends in the panic of the empty [Write]. *)
Theorem Image_frames (params : gmap string string) (data : string)
    (dec : list Z) (p : Printer) :
  numeric_present (params !! "width") = true →
  numeric_present (params !! "height") = true →
  align_ok (params !! "align") = true →
  DecodeString data = Some dec →
  let l := Z.of_nat (length dec) + 6 in
  (Image params data p).2 = Panic IndexOutOfRange
  ∧ emitted (Image params data p).1
    = emitted (if_present (params !! "align") SetAlign p).1
      ++ [0x1B; 0x28; 0x4C; l mod 256; l / 256 mod 256; 0x30; 0x70]
      ++ [0x30; 1; 1; 0x31] ++ dec
      ++ [0x1B; 0x28; 0x4C; 2; 0; 0x30; 0x32].
Proof.
  intros Hw Hh Ha Hd l. rewrite Image_numeric by done.
  destruct (returns_SetAlign _ Ha p) as [p1 H1].
  unfold bind. rewrite H1, Hd. unfold ret. cbv beta iota.
  rewrite gSend_run. cbn [app is_nil]. cbv beta iota zeta.
  rewrite gSend_run. cbn [is_nil length]. split; [done|].
  cbn [fst]. rewrite !emitted_sent, <- !app_assoc. simpl.
  replace (Z.of_nat (S (S (S (S (length dec))))) + 2) with l by lia.
  reflexivity.
Qed.

Lemma Image_frames_witness :
  (Image (<["width" := "2"]> {["height" := "2"]}) "AAAAAA=="
     (opened spooler_up)).2 = Panic IndexOutOfRange.
Proof.
  apply (Image_frames (<["width" := "2"]> {["height" := "2"]}) "AAAAAA=="
           [0; 0; 0; 0] (opened spooler_up)); vm_compute; reflexivity.
Defined.

(** X19. An image node sends no frame unless both dimensions are present
    and numeric and the payload decodes: if one of these fails, the run
    ends in a fatal message, and the spooler has received at most the
    alignment. *)
Theorem Image_checks_first (params : gmap string string) (data : string)
    (p : Printer) :
  numeric_present (params !! "width")
  && numeric_present (params !! "height")
  && bool_decide (is_Some (DecodeString data)) = false →
  (∃ e, (Image params data p).2 = Fatal e)
  ∧ spool (Image params data p).1
    = spool (if_present (params !! "align") SetAlign p).1.
Proof.
  unfold numeric_present, Image, bind. intros H.
  destruct (if_present (params !! "align") SetAlign p) as [p1 [[]|e|e]] eqn:Ea;
    simpl.
  - destruct (params !! "width") as [w|]; simpl; [|by eauto].
    destruct (params !! "height") as [h|]; simpl; [|by eauto].
    destruct (Atoi w) as [i|]; simpl; [|by eauto].
    destruct (Atoi h) as [j|]; simpl; [|by eauto].
    destruct (DecodeString data) as [d|]; simpl; [|by eauto].
    exfalso. rewrite (bool_decide_eq_true_2 (is_Some (Some d))) in H by eauto.
    discriminate H.
  - by eauto.
  - exfalso. destruct (params !! "align") as [a|]; [|discriminate Ea].
    simpl in Ea. unfold SetAlign, bind in Ea.
    repeat match type of Ea with
    | context [String.eqb a ?s] => destruct (String.eqb a s)
    end; discriminate Ea.
Qed.

Lemma Image_checks_first_witness :
  (∃ e, (Image {["width" := "2"]} "AAAAAA==" (opened spooler_up)).2 = Fatal e)
  ∧ spool (Image {["width" := "2"]} "AAAAAA==" (opened spooler_up)).1
    = spool (if_present (({["width" := "2"]} : gmap string string) !! "align")
               SetAlign (opened spooler_up)).1.
Proof.
  apply (Image_checks_first {["width" := "2"]} "AAAAAA==" (opened spooler_up)).
  vm_compute. reflexivity.
Defined.

(** ** Fonts, alignments and languages by name *)

(** X20. The three setters that take a name send the position of the name
    in their list: [SetFont] ESC 'M' and 0, 1, 2 for A, B, C; [SetAlign]
    ESC 'a' and 0, 1, 2 for left, center, right; [SetLang] ESC 'R' and 0 to
    9 for en, fr, de, uk, da, sv, it, es, ja, no.  No toggle changes. *)
Theorem named_setters_send_position (i : nat) (name : string) (p : Printer) :
  (["A"; "B"; "C"] !! i = Some name →
     SetFont name p = (sent [0x1B; 0x4D; Z.of_nat i] p, Done tt))
  ∧ (["left"; "center"; "right"] !! i = Some name →
       SetAlign name p = (sent [0x1B; 0x61; Z.of_nat i] p, Done tt))
  ∧ (["en"; "fr"; "de"; "uk"; "da"; "sv"; "it"; "es"; "ja"; "no"] !! i
       = Some name →
       SetLang name p = (sent [0x1B; 0x52; Z.of_nat i] p, Done tt)).
Proof.
  repeat split; intros H;
    repeat (destruct i as [|i]; [injection H as <-; reflexivity|]);
    discriminate H.
Qed.

Lemma named_setters_send_position_witness :
  SetAlign "center" (opened spooler_up)
  = (sent [0x1B; 0x61; Z.of_nat 1] (opened spooler_up), Done tt).
Proof.
  apply (named_setters_send_position 1 "center" (opened spooler_up)).
  reflexivity.
Defined.

(** X21. A name outside the list, a lower-case font letter included, ends
    the three setters in their fatal message with the printer as it was:
    nothing is sent. *)
Theorem named_setters_reject (name : string) (p : Printer) :
  (name ∉ ["A"; "B"; "C"] → SetFont name p = (p, Fatal (InvalidFont name)))
  ∧ (name ∉ ["left"; "center"; "right"] →
       SetAlign name p = (p, Fatal (InvalidAlignment name)))
  ∧ (name ∉ ["en"; "fr"; "de"; "uk"; "da"; "sv"; "it"; "es"; "ja"; "no"] →
       SetLang name p = (p, Fatal (InvalidLanguage name))).
Proof.
  repeat split; intros H; unfold SetFont, SetAlign, SetLang;
    repeat match goal with
    | |- context [String.eqb name ?s] =>
        destruct (String.eqb_spec name s) as [->|_];
          [exfalso; apply H; set_solver|]
    end; reflexivity.
Qed.

Lemma named_setters_reject_witness :
  SetFont "a" (opened spooler_up) = (opened spooler_up, Fatal (InvalidFont "a")).
Proof.
  apply (named_setters_reject "a" (opened spooler_up)).
  intros H. repeat (apply elem_of_cons in H as [H|H]; [discriminate H|]).
  by apply elem_of_nil in H.
Defined.

(** ** The status text of a print job *)

Lemma append_cons (c : ascii) (s t : string) :
  String c s +:+ t = String c (s +:+ t).
Proof. reflexivity. Qed.

Lemma append_nil_r (s : string) : s +:+ "" = s.
Proof. induction s as [|c s IH]; [done|]. by rewrite append_cons, IH. Qed.

Lemma append_assoc (s t u : string) : s +:+ (t +:+ u) = (s +:+ t) +:+ u.
Proof. induction s as [|c s IH]; [done|]. by rewrite !append_cons, IH. Qed.

Lemma add_flags_none (c : Z) (flags : list (Z * string)) (s : string) :
  Forall (λ fl : Z * string, Z.land c fl.1 = 0) flags →
  add_flags c flags s = s.
Proof.
  unfold add_flags. induction 1 as [|fl flags H _ IH]; simpl; [done|].
  by rewrite H.
Qed.

Lemma add_flags_app (c : Z) (flags : list (Z * string)) (s : string) :
  add_flags c flags s = s +:+ add_flags c flags "".
Proof.
  unfold add_flags. revert s.
  induction flags as [|[f lab] flags IH]; intros s; simpl.
  - by rewrite append_nil_r.
  - destruct (Z.land c f =? 0); [apply IH|].
    rewrite (IH (s +:+ lab)), (IH ("" +:+ lab)).
    change ("" +:+ lab) with lab. by rewrite append_assoc.
Qed.

(** What the flags add is empty, or starts with the text of one of them. *)
Lemma add_flags_head (c : Z) (flags : list (Z * string)) :
  (add_flags c flags "" = ""
   ∧ Forall (λ fl : Z * string, Z.land c fl.1 = 0) flags)
  ∨ ∃ fl r, fl ∈ flags ∧ add_flags c flags "" = fl.2 +:+ r.
Proof.
  induction flags as [|[f lab] flags IH].
  - left. by split.
  - unfold add_flags in *. simpl. destruct (Z.eqb_spec (Z.land c f) 0) as [E|E].
    + destruct IH as [[H1 H2]|(fl & r & Hin & Hr)].
      * left. split; [done|]. by constructor.
      * right. exists fl, r. split; [by right|done].
    + right. exists (f, lab). eexists. split; [by left|].
      change ("" +:+ lab) with lab. apply (add_flags_app c flags lab).
Qed.

Lemma TrimRight_head (c : ascii) (s : string) (cutset : list ascii) :
  c ∉ cutset → ∃ r, TrimRight (String c s) cutset = String c r.
Proof.
  intros H. simpl. destruct (TrimRight s cutset); [|by eexists].
  rewrite bool_decide_eq_false_2 by done. by eexists.
Qed.

Lemma flags_within_mask :
  Forall (λ fl : Z * string, Z.land 0x7FFF fl.1 = fl.1) jobStatusFlags
  ∧ foldr (λ fl m, Z.lor fl.1 m) 0 jobStatusFlags = 0x7FFF.
Proof. split; [|reflexivity]. repeat constructor. Qed.

Lemma land_flags_zero (c : Z) (flags : list (Z * string)) :
  Forall (λ fl : Z * string, Z.land c fl.1 = 0) flags →
  Z.land c (foldr (λ fl m, Z.lor fl.1 m) 0 flags) = 0.
Proof.
  induction 1 as [|fl flags H _ IH]; simpl.
  - apply Z.land_0_r.
  - by rewrite Z.land_lor_distr_r, H, IH.
Qed.

(** The texts of the flags start with a capital letter other than Q. *)
Lemma flags_initials :
  Forall (λ fl : Z * string, ∃ c r, fl.2 = String c r
            ∧ (c ∉ separators) ∧ c ≠ "Q"%char) jobStatusFlags.
Proof.
  repeat constructor; do 2 eexists;
    (split; [reflexivity|split; [|discriminate]]);
    intros H; repeat (apply elem_of_cons in H as [H|H]; [discriminate H|]);
    by apply elem_of_nil in H.
Qed.

Lemma jobStatus_unset (StatusCode : Z) :
  jobStatus "" StatusCode
  = TrimRight
      (add_flags StatusCode jobStatusFlags
         (if StatusCode =? 0 then "Queue Paused, " else "")) separators.
Proof. reflexivity. Qed.

(** X22. A job without a status string gets an empty status text exactly
    when its code is not zero and has none of the fifteen known bits
    (those of the mask 0x7FFF). *)
Theorem jobStatus_empty (StatusCode : Z) :
  jobStatus "" StatusCode = ""
  ↔ StatusCode ≠ 0 ∧ Z.land StatusCode 0x7FFF = 0.
Proof.
  destruct flags_within_mask as [Hin Hmask].
  rewrite jobStatus_unset. split.
  - intros H. destruct (Z.eqb_spec StatusCode 0) as [->|Hne];
      [vm_compute in H; discriminate H|]. split; [done|].
    destruct (add_flags_head StatusCode jobStatusFlags)
      as [[_ Hz]|(fl & r & Hfl & Hr)].
    + rewrite <- Hmask. by apply land_flags_zero.
    + exfalso. pose proof flags_initials as Hi. rewrite Forall_forall in Hi.
      destruct (Hi _ Hfl) as (c & r' & Hc & Hcut & _).
      rewrite Hr, Hc in H.
      destruct (TrimRight_head c (r' +:+ r) _ Hcut) as [t Ht].
      change (String c r' +:+ r) with (String c (r' +:+ r)) in H.
      rewrite Ht in H. discriminate H.
  - intros [Hne Hz]. destruct (Z.eqb_spec StatusCode 0) as [|_]; [done|].
    rewrite add_flags_none; [done|].
    apply (Forall_impl _ _ _ Hin). intros fl Hfl.
    rewrite <- Hfl, Z.land_assoc, Hz. apply Z.land_0_l.
Qed.

(** X23. A job without a status string is reported as "Queue Paused"
    exactly when its status code is zero. *)
Theorem jobStatus_queue_paused (StatusCode : Z) :
  jobStatus "" StatusCode = "Queue Paused" ↔ StatusCode = 0.
Proof.
  split; [|intros ->; reflexivity].
  rewrite jobStatus_unset.
  destruct (Z.eqb_spec StatusCode 0) as [|Hne]; [done|]. intros H. exfalso.
  destruct (add_flags_head StatusCode jobStatusFlags)
    as [[E _]|(fl & r & Hfl & Hr)].
  - rewrite E in H. discriminate H.
  - pose proof flags_initials as Hi. rewrite Forall_forall in Hi.
    destruct (Hi _ Hfl) as (c & r' & Hc & Hcut & HQ).
    rewrite Hr, Hc, append_cons in H.
    destruct (TrimRight_head c (r' +:+ r) _ Hcut) as [t Ht].
    rewrite Ht in H. by injection H.
Qed.

(** X24. A status string from the spooler that is not blank is reported
    as it is, whatever the code; a blank one is kept in front of the texts
    of the flags, and what [TrimRight] removes is then only a tail of
    commas and spaces: the text never ends in one of the two. *)
Theorem jobStatus_no_trailing_separator (Status : string) (StatusCode : Z) :
  (TrimSpace_is_empty Status = false → jobStatus Status StatusCode = Status)
  ∧ (TrimSpace_is_empty Status = true →
     ∀ s c, jobStatus Status StatusCode = s +:+ String c "" →
            c ≠ ","%char ∧ c ≠ " "%char).
Proof.
  unfold jobStatus. split; intros ->; [done|].
  generalize (add_flags StatusCode jobStatusFlags
                (if StatusCode =? 0 then Status +:+ "Queue Paused, "
                 else Status)).
  intros raw. induction raw as [|a raw IH]; intros s c H.
  - destruct s; discriminate H.
  - simpl in H. destruct (TrimRight raw separators) as [|b t] eqn:E.
    + clear IH. destruct (bool_decide (a ∈ separators)) eqn:Hin;
        [destruct s; discriminate H|].
      apply bool_decide_eq_false in Hin.
      destruct s as [|? [|? ?]]; try discriminate H.
      injection H as <-. unfold separators in Hin.
      split; intros ->; apply Hin; set_solver.
    + destruct s as [|a' s]; [discriminate H|].
      rewrite append_cons in H. injection H as _ H. by apply (IH s).
Qed.

Lemma jobStatus_no_trailing_separator_witness :
  jobStatus "Held" 0x10 = "Held".
Proof.
  apply (jobStatus_no_trailing_separator "Held" 0x10). reflexivity.
Defined.

(** ** Graphics frames, continued *)

(** X25. The length a frame announces is the true one only for payloads of
    up to 65533 bytes: [gSend] sends ESC '(' 'L' and then a buffer of the
    two length bytes, the mode and the function, and the length bytes,
    read as [lo + 256 * hi], give [len(payload) + 2] exactly when that
    number is below 65536. *)
Theorem gSend_length_field (m fn : Z) (payload : list Z) (p : Printer) :
  let l := Z.of_nat (length payload) + 2 in
  ∃ lo hi rest,
    spool (gSend m fn payload p).1
    = spool p ++ [0x1B; 0x28; 0x4C] :: [lo; hi; m; fn] :: rest
    ∧ 0 ≤ lo < 256 ∧ 0 ≤ hi < 256
    ∧ (lo + 256 * hi = l ↔ l < 65536).
Proof.
  intros l. exists (l mod 256), (l / 256 mod 256).
  assert (Hlo : 0 ≤ l mod 256 < 256) by (apply Z.mod_pos_bound; lia).
  assert (Hhi : 0 ≤ l / 256 mod 256 < 256) by (apply Z.mod_pos_bound; lia).
  assert (Hl : 0 ≤ l) by lia.
  assert (Hsum : l mod 256 + 256 * (l / 256 mod 256) = l mod 65536).
  { change 65536 with (256 * 256). rewrite Z.rem_mul_r by lia. lia. }
  rewrite gSend_run. fold l.
  exists (if is_nil payload then [] else [payload]).
  split; [|split; [done|split; [done|]]].
  - destruct payload; simpl; by rewrite <- !app_assoc.
  - rewrite Hsum. split; intros H.
    + rewrite <- H. apply Z.mod_pos_bound. lia.
    + apply Z.mod_small. lia.
Qed.
